(** * Carbono: the emissions engine, the monthly ledger, the scenario
      projector and the weekly plan tracker of [app.js]

    A shallow embedding of the storage class [CarbonStorage] and of the
    two scenario handlers of [app.js].  JavaScript numbers are IEEE 754
    binary64 values, which is what Rocq's primitive [float] is, so every
    arithmetic step below is the one the browser performs, rounding and
    [NaN] included. *)

From Stdlib Require Import ZArith Floats.
From Stdlib Require Uint63.
From stdpp Require Import gmap strings list sorting pretty.

Local Open Scope string_scope.
Set Warnings "-inexact-float".

(** ** JavaScript values that reach the arithmetic *)

Module JS.

(** What reading a property yields where this program does arithmetic:
    [undefined] (the property is missing), [null], a number, or an
    object that is not an array, which includes the functions that every
    object literal inherits from [Object.prototype]. *)
Inductive value :=
| Undefined
| Null
| Num (x : float)
| Obj.

(** [ToNumber]: [undefined] is [NaN], [null] is [+0], an object or a
    function is [NaN]. *)
Definition ToNumber (v : value) : float :=
  match v with
  | Undefined => nan
  | Null => zero
  | Num x => x
  | Obj => nan
  end.

(** [ToBoolean]: [undefined], [null], [+0], [-0] and [NaN] are falsy. *)
Definition ToBoolean (v : value) : bool :=
  match v with
  | Undefined | Null => false
  | Num x => negb (PrimFloat.is_zero x || PrimFloat.is_nan x)
  | Obj => true
  end.

(** [v || d] *)
Definition or_else (v d : value) : value :=
  if ToBoolean v then v else d.

(** The property names every object literal inherits from
    [Object.prototype]; each of them reads as a function or an object. *)
Definition Object_prototype : list string :=
  ["constructor"; "__defineGetter__"; "__defineSetter__"; "hasOwnProperty";
   "__lookupGetter__"; "__lookupSetter__"; "isPrototypeOf";
   "propertyIsEnumerable"; "toString"; "valueOf"; "__proto__";
   "toLocaleString"].

(** Reading [table[key]] on an object literal whose own properties are
    the entries of [table]: an own property, else an inherited one, else
    [undefined]. *)
Definition get (table : gmap string float) (key : string) : value :=
  match table !! key with
  | Some x => Num x
  | None => if decide (key ∈ Object_prototype) then Obj else Undefined
  end.

(** A property key built from a string-valued field that may be
    missing: [obj[undefined]] reads the property named ["undefined"]. *)
Definition ToPropertyKey (k : option string) : string :=
  match k with
  | Some s => s
  | None => "undefined"
  end.

(** [Math.max(a, b)]: [NaN] if either is [NaN], and [+0] is larger
    than [-0]. *)
Definition Math_max (a b : float) : float :=
  if is_nan a || is_nan b then nan
  else if (a <? b)%float then b
  else if (b <? a)%float then a
  else if get_sign a then b else a.

(** An integer as a number (exact below [2^53]). *)
Definition of_Z (n : Z) : float :=
  match n with
  | Z0 => zero
  | Zpos _ => PrimFloat.of_uint63 (Uint63.of_Z n)
  | Zneg p => (- PrimFloat.of_uint63 (Uint63.of_Z (Zpos p)))%float
  end.

(** The number of elements of an array, as a number. *)
Definition of_length (n : nat) : float := of_Z (Z.of_nat n).

(** [Math.round(x)]: the integer [floor(x + 1/2)], computed on the
    exact value [±m·2^e] of [x]; a result of zero keeps the sign of
    [x]; an [x] without fractional bits, a zero, an infinity and [NaN]
    are returned as they are. *)
Definition Math_round (x : float) : float :=
  match Prim2SF x with
  | S754_finite s m e =>
      if (0 <=? e)%Z then x
      else
        let v := if s then Zneg m else Zpos m in
        let n := Z.shiftr (2 * v + 2 ^ (- e)) (1 - e) in
        if (n =? 0)%Z then (if s then neg_zero else zero) else of_Z n
  | _ => x
  end.

(** [x.toFixed(1)].  Not a finite number: its name.  Otherwise the
    integer [n] nearest to ten times the absolute value, the larger one
    on a tie, written with a point before its last digit, after a minus
    sign if [x] is negative.  From [10^21] on [toFixed] switches to the
    exponent notation of [toString], which is left out ([None]). *)
Definition toFixed1 (x : float) : option string :=
  match Prim2SF x with
  | S754_nan => Some "NaN"
  | S754_infinity s => Some (if s then "-Infinity" else "Infinity")
  | S754_zero _ => Some "0.0"
  | S754_finite s m e =>
      if ((0 <=? e) && (10 ^ 21 <=? Z.pos m * 2 ^ e))%Z then None
      else
        let n :=
          if (0 <=? e)%Z then (Z.pos m * 2 ^ e * 10)%Z
          else ((Z.pos m * 20 + 2 ^ (- e)) `div` 2 ^ (1 - e))%Z in
        Some ((if s then "-" else "")
              +:+ pretty (n `div` 10)%Z +:+ "." +:+ pretty (n `mod` 10)%Z)
  end.

End JS.

Import JS.

(** ** Factor tables (lines 1-51) *)

Record FactorTables := {
  ef_transport : gmap string float;
  ef_energy : gmap string float;
  ef_food : gmap string float;
  ef_shopping : gmap string float;
  ef_waste : gmap string float
}.

Definition EMISSION_FACTORS : FactorTables := {|
  ef_transport := list_to_map
    [("car_gasoline", 0.12); ("car_ethanol", 0.05); ("motorcycle", 0.08);
     ("bus", 0.03); ("subway", 0.02); ("bicycle", 0); ("walking", 0);
     ("airplane", 0.18)]%float;
  ef_energy := list_to_map
    [("electricity", 0.15); ("natural_gas", 2.00); ("lpg", 1.50)]%float;
  ef_food := list_to_map
    [("beef", 27.0); ("chicken", 6.9); ("pork", 12.1); ("fish", 5.0);
     ("dairy", 3.2); ("vegetables", 2.0); ("grains", 1.5)]%float;
  ef_shopping := list_to_map
    [("electronics", 50.0); ("clothing", 15.0); ("furniture", 100.0);
     ("plastic", 5.0); ("paper", 2.0)]%float;
  ef_waste := list_to_map
    [("landfill", 0.5); ("recycled", 0.1); ("composted", 0.05)]%float
|}.

Definition FREQUENCY_FACTORS : gmap string float := list_to_map
  [("daily", 30); ("weekly_1", 4); ("weekly_2", 8); ("weekly_3", 12);
   ("weekly_5", 20); ("monthly_1", 1); ("monthly_2", 2);
   ("monthly_4", 4)]%float.

(** ** The persisted document (lines 53-75) *)

Record Habit := {
  h_id : Z;
  h_category : string;
  h_type : option string;
  h_quantity : value;
  h_distance : value;
  h_consumption : value;
  h_frequency : option string;
  h_emissions : value
}.

(** The accumulator object [emissionsByCategory]: five own properties,
    created in this order. *)
Record ByCategory := {
  transport : float;
  energy : float;
  food : float;
  shopping : float;
  waste : float
}.

(** [byCategory] as it is read back: a property can be missing (the
    default [{}]) or [null]. *)
Record StoredByCategory := {
  s_transport : value;
  s_energy : value;
  s_food : value;
  s_shopping : value;
  s_waste : value
}.

(** A ledger entry.  The default object of [getCurrentEmissions] has no
    [month]. *)
Record Aggregate := {
  month : option string;
  total : value;
  byCategory : StoredByCategory
}.

(** What [reductionPercent] holds: [Fixed1 x] is the string
    [x.toFixed(1)], kept as the number it prints (see [toFixed1]), and
    [Plain x] is the number [x] itself. *)
Inductive Shown :=
| Fixed1 (x : float)
| Plain (x : float).

(** A saved scenario, without its free-text [name] and [description]. *)
Record Scenario := {
  sc_id : Z;
  sc_createdAt : string;
  sc_baselineEmissions : value;
  sc_projectedEmissions : value;
  sc_reductionPercent : Shown;
  sc_reductionKg : value;
  sc_carReduction : value;
  sc_meatDays : value;
  sc_energyReduction : value;
  sc_recyclingIncrease : value
}.

Record Goal := {
  g_value : string;
  g_completed : bool
}.

Record Plan := {
  p_id : Z;
  p_createdAt : string;
  p_weekStart : string;
  p_weekEnd : string;
  p_goals : list Goal;
  p_progress : value;
  p_completed : bool
}.

Record Data := {
  habits : list Habit;
  emissions : list Aggregate;
  scenarios : list Scenario;
  weeklyPlans : list Plan;
  currentPlan : option Z
}.

(** *** [JSON.parse (JSON.stringify data)]

    [saveData] writes the document as JSON text and [getData] parses it
    again.  A number survives unless it is [NaN] or an infinity, which are
    written as [null]; [-0] is written as [0]; a property whose value is
    [undefined] is dropped. *)
Module JSON.

Definition number (x : float) : value :=
  if is_finite x then (if PrimFloat.is_zero x then Num zero else Num x)
  else Null.

Definition roundtrip (v : value) : value :=
  match v with
  | Num x => number x
  | Null => Null
  | Undefined => Undefined
  | Obj => Obj
  end.

Definition habit (h : Habit) : Habit :=
  {| h_id := h_id h; h_category := h_category h; h_type := h_type h;
     h_quantity := roundtrip (h_quantity h);
     h_distance := roundtrip (h_distance h);
     h_consumption := roundtrip (h_consumption h);
     h_frequency := h_frequency h;
     h_emissions := roundtrip (h_emissions h) |}.

Definition stored (c : StoredByCategory) : StoredByCategory :=
  {| s_transport := roundtrip (s_transport c);
     s_energy := roundtrip (s_energy c);
     s_food := roundtrip (s_food c);
     s_shopping := roundtrip (s_shopping c);
     s_waste := roundtrip (s_waste c) |}.

Definition aggregate (a : Aggregate) : Aggregate :=
  {| month := month a; total := roundtrip (total a);
     byCategory := stored (byCategory a) |}.

Definition scenario (s : Scenario) : Scenario :=
  {| sc_id := sc_id s; sc_createdAt := sc_createdAt s;
     sc_baselineEmissions := roundtrip (sc_baselineEmissions s);
     sc_projectedEmissions := roundtrip (sc_projectedEmissions s);
     sc_reductionPercent := sc_reductionPercent s;
     sc_reductionKg := roundtrip (sc_reductionKg s);
     sc_carReduction := roundtrip (sc_carReduction s);
     sc_meatDays := roundtrip (sc_meatDays s);
     sc_energyReduction := roundtrip (sc_energyReduction s);
     sc_recyclingIncrease := roundtrip (sc_recyclingIncrease s) |}.

Definition plan (p : Plan) : Plan :=
  {| p_id := p_id p; p_createdAt := p_createdAt p;
     p_weekStart := p_weekStart p; p_weekEnd := p_weekEnd p;
     p_goals := p_goals p; p_progress := roundtrip (p_progress p);
     p_completed := p_completed p |}.

Definition data (d : Data) : Data :=
  {| habits := habit <$> habits d;
     emissions := aggregate <$> emissions d;
     scenarios := scenario <$> scenarios d;
     weeklyPlans := plan <$> weeklyPlans d;
     currentPlan := currentPlan d |}.

End JSON.

(** ** [CarbonStorage] (lines 54-259)

    The store is the document under the key [carbonScopeData], as
    [getData] parses it once [init()] has run.  The clock is an argument:
    [currentMonth] stands for [new Date().toISOString().slice(0, 7)] and
    [now] for [Date.now()]. *)

Module CarbonStorage.

Local Open Scope float_scope.

Definition initialData : Data :=
  {| habits := []; emissions := []; scenarios := []; weeklyPlans := [];
     currentPlan := None |}.

Definition getData (store : Data) : Data := store.

Definition saveData (data : Data) : Data := JSON.data data.

Definition getHabits (store : Data) : list Habit := habits (getData store).

Definition zeroByCategory : ByCategory :=
  {| transport := 0; energy := 0; food := 0; shopping := 0; waste := 0 |}.

Definition factor (table : gmap string float) (habit : Habit) : float :=
  ToNumber (get table (ToPropertyKey (h_type habit))).

(** The body of the [forEach] callback, lines 108-143: the [switch]
    computes [emissions] and adds it to the accumulator of the habit's
    category, then [habit.emissions = emissions].  A category that
    matches no [case] leaves [emissions] at [0] and adds nothing. *)
Definition visit (acc : ByCategory) (habit : Habit) : ByCategory * Habit :=
  let '(emissions, acc') :=
    if decide (h_category habit = "transport") then
      let freqFactor :=
        or_else (get FREQUENCY_FACTORS (ToPropertyKey (h_frequency habit)))
                (Num 1) in
      let monthlyDistance :=
        ToNumber (h_distance habit) * ToNumber freqFactor in
      let emissions :=
        monthlyDistance * factor (ef_transport EMISSION_FACTORS) habit in
      (emissions,
       {| transport := transport acc + emissions; energy := energy acc;
          food := food acc; shopping := shopping acc; waste := waste acc |})
    else if decide (h_category habit = "energy") then
      let emissions :=
        ToNumber (h_consumption habit)
        * factor (ef_energy EMISSION_FACTORS) habit in
      (emissions,
       {| transport := transport acc; energy := energy acc + emissions;
          food := food acc; shopping := shopping acc; waste := waste acc |})
    else if decide (h_category habit = "food") then
      let weeklyKg := ToNumber (h_quantity habit) in
      let monthlyKg := weeklyKg * 4 in
      let emissions := monthlyKg * factor (ef_food EMISSION_FACTORS) habit in
      (emissions,
       {| transport := transport acc; energy := energy acc;
          food := food acc + emissions; shopping := shopping acc;
          waste := waste acc |})
    else if decide (h_category habit = "shopping") then
      let emissions :=
        ToNumber (h_quantity habit)
        * factor (ef_shopping EMISSION_FACTORS) habit in
      (emissions,
       {| transport := transport acc; energy := energy acc;
          food := food acc; shopping := shopping acc + emissions;
          waste := waste acc |})
    else if decide (h_category habit = "waste") then
      let weeklyWaste := ToNumber (h_quantity habit) in
      let monthlyWaste := weeklyWaste * 4 in
      let emissions :=
        monthlyWaste * factor (ef_waste EMISSION_FACTORS) habit in
      (emissions,
       {| transport := transport acc; energy := energy acc;
          food := food acc; shopping := shopping acc;
          waste := waste acc + emissions |})
    else (0, acc) in
  (acc',
   {| h_id := h_id habit; h_category := h_category habit;
      h_type := h_type habit; h_quantity := h_quantity habit;
      h_distance := h_distance habit;
      h_consumption := h_consumption habit;
      h_frequency := h_frequency habit; h_emissions := Num emissions |}).

(** [habits.forEach(...)]: the accumulator after the loop, and the
    habits with their [emissions] refreshed. *)
Fixpoint forEach (acc : ByCategory) (hs : list Habit)
  : ByCategory * list Habit :=
  match hs with
  | [] => (acc, [])
  | habit :: rest =>
      let '(acc', habit') := visit acc habit in
      let '(acc'', rest') := forEach acc' rest in
      (acc'', habit' :: rest')
  end.

(** [Object.values(emissionsByCategory)], in property creation order. *)
Definition Object_values (c : ByCategory) : list float :=
  [transport c; energy c; food c; shopping c; waste c].

(** [values.reduce((a, b) => a + b, 0)] *)
Definition sum (values : list float) : float :=
  fold_left (λ a b, a + b) values 0.

Definition asStored (c : ByCategory) : StoredByCategory :=
  {| s_transport := Num (transport c); s_energy := Num (energy c);
     s_food := Num (food c); s_shopping := Num (shopping c);
     s_waste := Num (waste c) |}.

(** [data.emissions.findIndex(e => e.month === currentMonth)]; [None]
    is the result [-1]. *)
Definition findIndex {A} (P : A → Prop) `{!∀ x, Decision (P x)}
    (l : list A) : option nat :=
  fst <$> list_find P l.

(** [calculateEmissions()], lines 97-171.  [existingIndex] is [None]
    for [-1].  The habits that the loop annotates come from one [getData]
    call and the document that is saved from another, so the refreshed
    [emissions] of the habits are not part of what is written. *)
Definition calculateEmissions (currentMonth : string) (store : Data)
  : Data * float :=
  let '(emissionsByCategory, _) :=
    forEach zeroByCategory (getHabits store) in
  let data := getData store in
  let existingIndex :=
    findIndex (λ e, month e = Some currentMonth) (emissions data) in
  let totalEmissions := sum (Object_values emissionsByCategory) in
  let record :=
    {| month := Some currentMonth; total := Num totalEmissions;
       byCategory := asStored emissionsByCategory |} in
  let emissions' :=
    match existingIndex with
    | Some i => <[i:=record]> (emissions data)
    | None => (emissions data ++ [record])%list
    end in
  let data' :=
    {| habits := habits data; emissions := emissions';
       scenarios := scenarios data; weeklyPlans := weeklyPlans data;
       currentPlan := currentPlan data |} in
  (saveData data', totalEmissions).

(** [addHabit(habit)], lines 77-84; the id is [Date.now()]. *)
Definition addHabit (now : Z) (currentMonth : string) (habit : Habit)
    (store : Data) : Data :=
  let data := getData store in
  let habit' :=
    {| h_id := now; h_category := h_category habit;
       h_type := h_type habit; h_quantity := h_quantity habit;
       h_distance := h_distance habit;
       h_consumption := h_consumption habit;
       h_frequency := h_frequency habit;
       h_emissions := h_emissions habit |} in
  let data' :=
    {| habits := habits data ++ [habit']; emissions := emissions data;
       scenarios := scenarios data; weeklyPlans := weeklyPlans data;
       currentPlan := currentPlan data |} in
  fst (calculateEmissions currentMonth (saveData data')).

(** [deleteHabit(id)], lines 90-95. *)
Definition deleteHabit (currentMonth : string) (id : Z) (store : Data)
  : Data :=
  let data := getData store in
  let data' :=
    {| habits := filter (λ h, h_id h ≠ id) (habits data);
       emissions := emissions data; scenarios := scenarios data;
       weeklyPlans := weeklyPlans data;
       currentPlan := currentPlan data |} in
  fst (calculateEmissions currentMonth (saveData data')).

Definition defaultEmissions : Aggregate :=
  {| month := None; total := Num 0;
     byCategory :=
       {| s_transport := Undefined; s_energy := Undefined;
          s_food := Undefined; s_shopping := Undefined;
          s_waste := Undefined |} |}.

(** [getCurrentEmissions()], lines 173-177. *)
Definition getCurrentEmissions (currentMonth : string) (store : Data)
  : Aggregate :=
  match list_find (λ e, month e = Some currentMonth)
                  (emissions (getData store)) with
  | Some (_, e) => e
  | None => defaultEmissions
  end.

(** [getMonthlyHistory()], lines 179-181. *)
Definition getMonthlyHistory (store : Data) : list Aggregate :=
  emissions (getData store).

(** [addScenario(scenario)], lines 183-190. *)
Definition addScenario (now : Z) (createdAt : string) (scenario : Scenario)
    (store : Data) : Data :=
  let data := getData store in
  let scenario' :=
    {| sc_id := now; sc_createdAt := createdAt;
       sc_baselineEmissions := sc_baselineEmissions scenario;
       sc_projectedEmissions := sc_projectedEmissions scenario;
       sc_reductionPercent := sc_reductionPercent scenario;
       sc_reductionKg := sc_reductionKg scenario;
       sc_carReduction := sc_carReduction scenario;
       sc_meatDays := sc_meatDays scenario;
       sc_energyReduction := sc_energyReduction scenario;
       sc_recyclingIncrease := sc_recyclingIncrease scenario |} in
  saveData
    {| habits := habits data; emissions := emissions data;
       scenarios := scenarios data ++ [scenario'];
       weeklyPlans := weeklyPlans data;
       currentPlan := currentPlan data |}.

Definition getScenarios (store : Data) : list Scenario :=
  scenarios (getData store).

(** [addWeeklyPlan(plan)], lines 196-222.  [weekStart] and [weekEnd]
    are the Monday and Sunday the [Date] arithmetic of lines 204-212
    yields. *)
Definition addWeeklyPlan (now : Z) (createdAt weekStart weekEnd : string)
    (goals : list Goal) (store : Data) : Data :=
  let data := getData store in
  let plan :=
    {| p_id := now; p_createdAt := createdAt; p_weekStart := weekStart;
       p_weekEnd := weekEnd;
       p_goals :=
         (λ goal, {| g_value := g_value goal; g_completed := false |})
           <$> goals;
       p_progress := Num 0; p_completed := false |} in
  saveData
    {| habits := habits data; emissions := emissions data;
       scenarios := scenarios data;
       weeklyPlans := weeklyPlans data ++ [plan];
       currentPlan := Some (p_id plan) |}.

(** [array[i]] for an integer [i]: [undefined] outside the array. *)
Definition at_index {A} (l : list A) (i : Z) : option A :=
  if (0 <=? i)%Z then l !! Z.to_nat i else None.

(** [updatePlanProgress(planId, goalIndex, completed)], lines 230-252. *)
Definition updatePlanProgress (planId goalIndex : Z) (completed : bool)
    (store : Data) : Data :=
  let data := getData store in
  match findIndex (λ p, p_id p = planId) (weeklyPlans data) with
  | Some planIndex =>
      match weeklyPlans data !! planIndex with
      | Some plan =>
          match at_index (p_goals plan) goalIndex with
          | Some goal =>
              let goals :=
                <[Z.to_nat goalIndex :=
                    {| g_value := g_value goal; g_completed := completed |}]>
                  (p_goals plan) in
              let completedGoals :=
                length (filter (λ g, g_completed g = true) goals) in
              let progress :=
                Math_round
                  (of_length completedGoals / of_length (length goals)
                   * 100) in
              let plan' :=
                {| p_id := p_id plan; p_createdAt := p_createdAt plan;
                   p_weekStart := p_weekStart plan;
                   p_weekEnd := p_weekEnd plan; p_goals := goals;
                   p_progress := Num progress;
                   p_completed :=
                     if decide (completedGoals = length goals) then true
                     else p_completed plan |} in
              saveData
                {| habits := habits data; emissions := emissions data;
                   scenarios := scenarios data;
                   weeklyPlans := <[planIndex := plan']> (weeklyPlans data);
                   currentPlan := currentPlan data |}
          | None => store
          end
      | None => store
      end
  | None => store
  end.

(** [getPreviousPlans()], lines 254-258; a [currentPlan] of [null]
    differs from every id. *)
Definition getPreviousPlans (store : Data) : list Plan :=
  let data := getData store in
  let currentPlanId := currentPlan data in
  filter (λ p, Some (p_id p) ≠ currentPlanId) (weeklyPlans data).

End CarbonStorage.

(** ** The scenario page (lines 758-894)

    [Sliders] holds what [parseInt] returns for the four range inputs. *)

Record Sliders := {
  carReduction : float;
  meatReduction : float;
  energyReduction : float;
  recyclingIncrease : float
}.

(** What [updateScenarioResults] writes to the page. *)
Record Preview := {
  pv_currentEmissions : float;
  pv_projectedEmissions : float;
  pv_reductionPercent : Shown;
  pv_reductionKg : float
}.

Module Scenarios.

Local Open Scope float_scope.

(** The click handler of [createScenarioBtn], lines 789-829, for a
    non-empty name: the scenario object handed to [addScenario], which
    gives it its [id] and [createdAt]. *)
Definition createBtn_scenario (currentEmissions : Aggregate) (sl : Sliders)
  : Scenario :=
  let carReduction := carReduction sl / 100 in
  let meatDays := meatReduction sl in
  let energyReduction := energyReduction sl / 100 in
  let recyclingIncrease := recyclingIncrease sl / 100 in
  let projectedTotal := ToNumber (or_else (total currentEmissions) (Num 0)) in
  let transportReduction :=
    ToNumber (or_else (s_transport (byCategory currentEmissions)) (Num 0))
    * 0.5 * carReduction in
  let projectedTotal := projectedTotal - transportReduction in
  let foodReduction := meatDays * 0.5 * 4 in
  let projectedTotal := projectedTotal - foodReduction in
  let energyReductionKg :=
    ToNumber (or_else (s_energy (byCategory currentEmissions)) (Num 0))
    * energyReduction in
  let projectedTotal := projectedTotal - energyReductionKg in
  let wasteReduction :=
    ToNumber (or_else (s_waste (byCategory currentEmissions)) (Num 0))
    * 0.8 * recyclingIncrease in
  let projectedTotal := projectedTotal - wasteReduction in
  let reductionPercent :=
    Fixed1 ((ToNumber (total currentEmissions) - projectedTotal)
            / ToNumber (total currentEmissions) * 100) in
  {| sc_id := 0%Z; sc_createdAt := "";
     sc_baselineEmissions := total currentEmissions;
     sc_projectedEmissions := Num projectedTotal;
     sc_reductionPercent := reductionPercent;
     sc_reductionKg :=
       Num (ToNumber (total currentEmissions) - projectedTotal);
     sc_carReduction := Num carReduction;
     sc_meatDays := Num meatDays;
     sc_energyReduction := Num energyReduction;
     sc_recyclingIncrease := Num recyclingIncrease |}.

(** The whole click: read the ledger, build the scenario, save it. *)
Definition createBtn_click (now : Z) (createdAt currentMonth : string)
    (sl : Sliders) (store : Data) : Data :=
  let currentEmissions :=
    CarbonStorage.getCurrentEmissions currentMonth store in
  CarbonStorage.addScenario now createdAt
    (createBtn_scenario currentEmissions sl) store.

(** [updateScenarioResults()], lines 841-881. *)
Definition updateScenarioResults (currentEmissions : Aggregate)
    (sl : Sliders) : Preview :=
  let totalEmissions := ToNumber (or_else (total currentEmissions) (Num 0)) in
  let carReduction := carReduction sl / 100 in
  let meatDays := meatReduction sl in
  let energyReduction := energyReduction sl / 100 in
  let recyclingIncrease := recyclingIncrease sl / 100 in
  let projectedTotal := totalEmissions in
  let transportReduction :=
    ToNumber (or_else (s_transport (byCategory currentEmissions)) (Num 0))
    * 0.5 * carReduction in
  let projectedTotal := projectedTotal - transportReduction in
  let foodReduction := meatDays * 0.5 * 4 in
  let projectedTotal := projectedTotal - foodReduction in
  let energyReductionKg :=
    ToNumber (or_else (s_energy (byCategory currentEmissions)) (Num 0))
    * energyReduction in
  let projectedTotal := projectedTotal - energyReductionKg in
  let wasteReduction :=
    ToNumber (or_else (s_waste (byCategory currentEmissions)) (Num 0))
    * 0.8 * recyclingIncrease in
  let projectedTotal := projectedTotal - wasteReduction in
  let projectedTotal := Math_max 0 projectedTotal in
  let reductionKg := totalEmissions - projectedTotal in
  let reductionPercent :=
    if 0 <? totalEmissions
    then Fixed1 (reductionKg / totalEmissions * 100)
    else Plain 0 in
  {| pv_currentEmissions := totalEmissions;
     pv_projectedEmissions := projectedTotal;
     pv_reductionPercent := reductionPercent;
     pv_reductionKg := reductionKg |}.

End Scenarios.

(** ** Vocabulary of the statements *)

(** A binary64 value that is a zero or a finite number. *)
Definition SFfin (x : spec_float) : bool :=
  match x with
  | S754_zero _ | S754_finite _ _ _ => true
  | _ => false
  end.

(** What a numeric field of the stored document reads as: a finite
    number, [null], or nothing. *)
Definition storable (v : value) : Prop :=
  match v with
  | Num x => is_finite x = true
  | Obj => False
  | _ => True
  end.

(** An aggregate as the ledger hands it to the scenario page. *)
Definition storableAggregate (a : Aggregate) : Prop :=
  storable (total a) ∧ storable (s_transport (byCategory a)) ∧
  storable (s_energy (byCategory a)) ∧ storable (s_waste (byCategory a)).

(** The object literal of lines 156-166, as a function of the habits. *)
Definition newAggregate (currentMonth : string) (hs : list Habit)
  : Aggregate :=
  let emissionsByCategory :=
    fst (CarbonStorage.forEach CarbonStorage.zeroByCategory hs) in
  let totalEmissions :=
    CarbonStorage.sum (CarbonStorage.Object_values emissionsByCategory) in
  {| month := Some currentMonth; total := Num totalEmissions;
     byCategory := CarbonStorage.asStored emissionsByCategory |}.

(** Lines 150-167 as a function of the ledger: replace the first entry
    of the month, or append. *)
Definition upsert (currentMonth : string) (record : Aggregate)
    (ledger : list Aggregate) : list Aggregate :=
  match CarbonStorage.findIndex (λ e, month e = Some currentMonth) ledger with
  | Some existingIndex => <[existingIndex := record]> ledger
  | None => (ledger ++ [record])%list
  end.

(** The baseline total as both scenario handlers read it:
    [currentEmissions.total || 0]. *)
Definition baselineTotal (a : Aggregate) : float :=
  ToNumber (or_else (total a) (Num 0)).

(** The ledger entries of one month. *)
Definition entriesFor (m : string) (ledger : list Aggregate)
  : list Aggregate :=
  filter (λ e, month e = Some m) ledger.

(** The [emissions] annotation of the habits of one category, in order. *)
Definition emissionsOf (category : string) (hs : list Habit) : list float :=
  (λ h, ToNumber (h_emissions h))
    <$> filter (λ h, h_category h = category) hs.

(** A habit as one pass of the loop body leaves it. *)
Definition annotate (habit : Habit) : Habit :=
  snd (CarbonStorage.visit CarbonStorage.zeroByCategory habit).

(** The factor table a category's [case] reads, if it has one. *)
Definition tableOf (category : string) : option (gmap string float) :=
  if decide (category = "transport") then Some (ef_transport EMISSION_FACTORS)
  else if decide (category = "energy") then Some (ef_energy EMISSION_FACTORS)
  else if decide (category = "food") then Some (ef_food EMISSION_FACTORS)
  else if decide (category = "shopping") then Some (ef_shopping EMISSION_FACTORS)
  else if decide (category = "waste") then Some (ef_waste EMISSION_FACTORS)
  else None.

(** The accumulator of a category, by name. *)
Definition categoryTotal (category : string) (c : ByCategory) : option float :=
  if decide (category = "transport") then Some (transport c)
  else if decide (category = "energy") then Some (energy c)
  else if decide (category = "food") then Some (food c)
  else if decide (category = "shopping") then Some (shopping c)
  else if decide (category = "waste") then Some (waste c)
  else None.

(** The habits of the worked example, as the transport and food forms
    build them (lines 658-664 and 699-703). *)
Definition carHabit : Habit :=
  {| h_id := 1; h_category := "transport"; h_type := Some "car_gasoline";
     h_quantity := Num 20; h_distance := Num 20; h_consumption := Undefined;
     h_frequency := Some "daily"; h_emissions := Undefined |}.

Definition beefHabit : Habit :=
  {| h_id := 2; h_category := "food"; h_type := Some "beef";
     h_quantity := Num 1; h_distance := Undefined;
     h_consumption := Undefined; h_frequency := None;
     h_emissions := Undefined |}.

(** A food habit whose type is not in the food table. *)
Definition tofuHabit : Habit :=
  {| h_id := 3; h_category := "food"; h_type := Some "tofu";
     h_quantity := Num 1; h_distance := Undefined;
     h_consumption := Undefined; h_frequency := None;
     h_emissions := Undefined |}.

(** A transport habit stored without a frequency. *)
Definition busHabit : Habit :=
  {| h_id := 4; h_category := "transport"; h_type := Some "bus";
     h_quantity := Num 10; h_distance := Num 10;
     h_consumption := Undefined; h_frequency := None;
     h_emissions := Undefined |}.

Definition storeOf (hs : list Habit) : Data :=
  {| habits := hs; emissions := []; scenarios := []; weeklyPlans := [];
     currentPlan := None |}.

(** The store after the habit list has been edited. *)
Definition withHabits (hs : list Habit) (d : Data) : Data :=
  {| habits := hs; emissions := emissions d; scenarios := scenarios d;
     weeklyPlans := weeklyPlans d; currentPlan := currentPlan d |}.

(** The data-model invariant of the ledger: at most one entry a month. *)
Definition oneEntryPerMonth (ledger : list Aggregate) : Prop :=
  ∀ m, (length (entriesFor m ledger) ≤ 1)%nat.

(** All four sliders at zero. *)
Definition zeroSliders : Sliders :=
  {| carReduction := 0; meatReduction := 0; energyReduction := 0;
     recyclingIncrease := 0 |}.

(** One meat-free day a week, nothing else. *)
Definition oneMeatFreeDay : Sliders :=
  {| carReduction := 0; meatReduction := 1; energyReduction := 0;
     recyclingIncrease := 0 |}.

(** A shopping habit entered with a negative quantity: [parseInt]
    accepts "-2" (line 721). *)
Definition returnedPaper : Habit :=
  {| h_id := 5; h_category := "shopping"; h_type := Some "paper";
     h_quantity := Num (-2); h_distance := Undefined;
     h_consumption := Undefined; h_frequency := None;
     h_emissions := Undefined |}.

(** The current-month aggregate after a recompute over [hs], as
    [getCurrentEmissions] reads it back. *)
Definition baselineOf (currentMonth : string) (hs : list Habit) : Aggregate :=
  CarbonStorage.getCurrentEmissions currentMonth
    (fst (CarbonStorage.calculateEmissions currentMonth (storeOf hs))).

(** Goals as the plan creator collects them (lines 1111-1116). *)
Definition goalsOf (values : list string) : list Goal :=
  (λ v, {| g_value := v; g_completed := false |}) <$> values.

(** A plan created at instant [now] on an empty store. *)
Definition planStore (now : Z) (values : list string) : Data :=
  CarbonStorage.addWeeklyPlan now "2026-11-02T10:00:00.000Z" "2026-11-02"
    "2026-11-08" (goalsOf values) CarbonStorage.initialData.

(** Three plans created one after the other, at instants 1, 2 and 3. *)
Definition threePlans : Data :=
  CarbonStorage.addWeeklyPlan 3 "2026-11-16T10:00:00.000Z" "2026-11-16"
    "2026-11-22" (goalsOf ["waste_recycling"])
    (CarbonStorage.addWeeklyPlan 2 "2026-11-09T10:00:00.000Z" "2026-11-09"
       "2026-11-15" (goalsOf ["food_vegetarian"])
       (planStore 1 ["energy_saving"])).

(** The stores the pages can bring about, starting from [init()]. *)
Inductive reachable : Data → Prop :=
| reach_init : reachable CarbonStorage.initialData
| reach_addHabit now currentMonth habit store :
    reachable store →
    reachable (CarbonStorage.addHabit now currentMonth habit store)
| reach_deleteHabit currentMonth id store :
    reachable store →
    reachable (CarbonStorage.deleteHabit currentMonth id store)
| reach_calculateEmissions currentMonth store :
    reachable store →
    reachable (fst (CarbonStorage.calculateEmissions currentMonth store))
| reach_createBtn_click now createdAt currentMonth sl store :
    reachable store →
    reachable (Scenarios.createBtn_click now createdAt currentMonth sl store)
| reach_addWeeklyPlan now createdAt weekStart weekEnd goals store :
    reachable store →
    reachable (CarbonStorage.addWeeklyPlan now createdAt weekStart weekEnd
                 goals store)
| reach_updatePlanProgress planId goalIndex completed store :
    reachable store →
    reachable (CarbonStorage.updatePlanProgress planId goalIndex completed
                 store).

(** What [loadPreviousPlans] does with the previous plans before it
    draws them (lines 1058-1062): [sort((a, b) => b.id - a.id)], a stable
    sort, here by insertion from the right, then [slice(0, 5)]. *)
Fixpoint insertNewestFirst (p : Plan) (sorted : list Plan) : list Plan :=
  match sorted with
  | [] => [p]
  | q :: rest =>
      if (p_id q <=? p_id p)%Z then p :: q :: rest
      else q :: insertNewestFirst p rest
  end.

Definition sortNewestFirst (plans : list Plan) : list Plan :=
  foldr insertNewestFirst [] plans.

Definition shownPreviousPlans (store : Data) : list Plan :=
  take 5 (sortNewestFirst (CarbonStorage.getPreviousPlans store)).

(** Plans listed newest first: ids are creation instants. *)
Definition mostRecentFirst (plans : list Plan) : Prop :=
  StronglySorted (λ p q, (p_id q < p_id p)%Z) plans.

(** ** More of [app.js]: vocabulary and the pages' computations *)

(** What a function hands back, or the [TypeError] it throws. *)
Inductive outcome (A : Type) :=
| Returned (a : A)
| TypeError.

Arguments Returned {A} a.
Arguments TypeError {A}.

(** A piece of text a template literal produces: [x.toFixed(1)], kept as
    the number it prints, or a string of the source. *)
Inductive Text :=
| TFixed1 (x : float)
| TLiteral (s : string).

(** [CarbonStorage.getCurrentPlan()], lines 224-228.  [None] stands for
    the [null] of line 226 and for the [undefined] of a [find] without a
    match, which the callers do not tell apart.  An id of [0] is falsy. *)
Definition getCurrentPlan (store : Data) : option Plan :=
  let data := CarbonStorage.getData store in
  match currentPlan data with
  | None => None
  | Some id =>
      if (id =? 0)%Z then None
      else snd <$> list_find (λ p, p_id p = id) (weeklyPlans data)
  end.

(** The habit as [addHabit] stores it: [habit.id = Date.now()]. *)
Definition stamped (now : Z) (habit : Habit) : Habit :=
  {| h_id := now; h_category := h_category habit; h_type := h_type habit;
     h_quantity := h_quantity habit; h_distance := h_distance habit;
     h_consumption := h_consumption habit;
     h_frequency := h_frequency habit; h_emissions := h_emissions habit |}.

(** The habit objects the five forms of [setupHabitForms] build (lines
    658-664, 679-684, 699-703, 718-722, 737-741); the number is what
    [parseFloat] or [parseInt] returned for the field. *)
Definition transportForm (type frequency : string) (distance : float)
  : Habit :=
  {| h_id := 0; h_category := "transport"; h_type := Some type;
     h_quantity := Num distance; h_distance := Num distance;
     h_consumption := Undefined; h_frequency := Some frequency;
     h_emissions := Undefined |}.

Definition energyForm (type : string) (consumption : float) : Habit :=
  {| h_id := 0; h_category := "energy"; h_type := Some type;
     h_quantity := Num consumption; h_distance := Undefined;
     h_consumption := Num consumption; h_frequency := None;
     h_emissions := Undefined |}.

Definition quantityForm (category type : string) (quantity : float)
  : Habit :=
  {| h_id := 0; h_category := category; h_type := Some type;
     h_quantity := Num quantity; h_distance := Undefined;
     h_consumption := Undefined; h_frequency := None;
     h_emissions := Undefined |}.

Definition foodForm := quantityForm "food".
Definition shoppingForm := quantityForm "shopping".
Definition wasteForm := quantityForm "waste".

(** The emissions text of a row of [loadHabitsList], line 602:
    [habit.emissions ? habit.emissions.toFixed(1) : '0'].  An object has
    no [toFixed]. *)
Definition emissionsLabel (habit : Habit) : outcome Text :=
  if ToBoolean (h_emissions habit) then
    match h_emissions habit with
    | Num x => Returned (TFixed1 x)
    | _ => TypeError
    end
  else Returned (TLiteral "0").

(** A category that one of the five [case]s of the engine handles. *)
Definition knownCategory (habit : Habit) : Prop :=
  is_Some (tableOf (h_category habit)).

#[global] Instance knownCategory_dec habit : Decision (knownCategory habit).
Proof. unfold knownCategory. apply _. Defined.

(** A store whose habits carry no [emissions] property, as the forms
    build them. *)
Definition unannotated (hs : list Habit) : Prop :=
  Forall (λ h, h_emissions h = Undefined) hs.

(** The stores the pages bring about when every habit comes from one of
    the five forms of [setupHabitForms]. *)
Inductive entered : Data → Prop :=
| entered_init : entered CarbonStorage.initialData
| entered_transport now currentMonth type frequency distance store :
    entered store →
    entered (CarbonStorage.addHabit now currentMonth
               (transportForm type frequency distance) store)
| entered_energy now currentMonth type consumption store :
    entered store →
    entered (CarbonStorage.addHabit now currentMonth
               (energyForm type consumption) store)
| entered_quantity now currentMonth category type quantity store :
    category ∈ ["food"; "shopping"; "waste"] →
    entered store →
    entered (CarbonStorage.addHabit now currentMonth
               (quantityForm category type quantity) store)
| entered_deleteHabit currentMonth id store :
    entered store →
    entered (CarbonStorage.deleteHabit currentMonth id store)
| entered_createBtn_click now createdAt currentMonth sl store :
    entered store →
    entered (Scenarios.createBtn_click now createdAt currentMonth sl store)
| entered_addWeeklyPlan now createdAt weekStart weekEnd goals store :
    entered store →
    entered (CarbonStorage.addWeeklyPlan now createdAt weekStart weekEnd
               goals store)
| entered_updatePlanProgress planId goalIndex completed store :
    entered store →
    entered (CarbonStorage.updatePlanProgress planId goalIndex completed
               store).

(** The plan that lines 234-246 of [updatePlanProgress] make of [plan]
    when [goal] is its goal at [goalIndex]. *)
Definition toggled (goalIndex : Z) (completed : bool) (plan : Plan)
    (goal : Goal) : Plan :=
  let goals :=
    <[Z.to_nat goalIndex :=
        {| g_value := g_value goal; g_completed := completed |}]>
      (p_goals plan) in
  let completedGoals := length (filter (λ g, g_completed g = true) goals) in
  {| p_id := p_id plan; p_createdAt := p_createdAt plan;
     p_weekStart := p_weekStart plan; p_weekEnd := p_weekEnd plan;
     p_goals := goals;
     p_progress :=
       Num (Math_round
              (of_length completedGoals / of_length (length goals) * 100));
     p_completed :=
       if decide (completedGoals = length goals) then true
       else p_completed plan |}.

(** A plan all of whose goals are ticked is marked completed. *)
Definition marked (p : Plan) : Prop :=
  p_goals p ≠ [] → Forall (λ g, g_completed g = true) (p_goals p) →
  p_completed p = true.

(** ** Signs

    A number that is not below zero: [x < 0] is false, as it is for
    [NaN]. *)
Definition notNegative (x : float) : Prop := (x <? 0)%float = false.

(** Habits none of whose numeric fields is below zero. *)
Definition nothingNegative (hs : list Habit) : Prop :=
  Forall (λ h, notNegative (ToNumber (h_quantity h)) ∧
               notNegative (ToNumber (h_distance h)) ∧
               notNegative (ToNumber (h_consumption h))) hs.

(** An accumulator none of whose five values is below zero. *)
Definition noneNegative (c : ByCategory) : Prop :=
  Forall notNegative (CarbonStorage.Object_values c).


(** ** The dashboard page (lines 317-461) *)

(** The comparison with the previous month that [updateDashboard]
    shows, lines 325-334: the number [0], or the [toFixed(1)] string of
    the change in percent against the last entry but one of the
    history. *)
Definition comparison (currentEmissions : Aggregate)
    (monthlyHistory : list Aggregate) : Shown :=
  let totalEmissions := ToNumber (or_else (total currentEmissions) (Num 0)) in
  if decide (2 ≤ length monthlyHistory)%nat then
    match monthlyHistory !! (length monthlyHistory - 2)%nat with
    | Some previousMonth =>
        if (0 <? ToNumber (total previousMonth))%float then
          Fixed1 ((totalEmissions - ToNumber (total previousMonth))
                  / ToNumber (total previousMonth) * 100)%float
        else Plain 0
    | None => Plain 0
    end
  else Plain 0.

(** A property that is present, whatever its value. *)
Definition present (v : value) : bool :=
  match v with
  | Undefined => false
  | _ => true
  end.

(** [Object.entries(categoryData)]: the own properties in creation
    order; the default [{}] has none. *)
Definition Object_entries (categoryData : StoredByCategory)
  : list (string * value) :=
  filter (λ kv, present kv.2 = true)
    [("transport", s_transport categoryData);
     ("energy", s_energy categoryData);
     ("food", s_food categoryData);
     ("shopping", s_shopping categoryData);
     ("waste", s_waste categoryData)].

(** A row of the category details: the category, the value that
    [value.toFixed(1)] prints and the percentage that the second
    [toFixed(1)] prints. *)
Record DetailRow := {
  dr_category : string;
  dr_value : float;
  dr_percent : float
}.

(** The [forEach] of [updateCategoryDetails], lines 433-460: the rows
    appended to the page, and how the loop ended.  [null.toFixed] throws
    and ends it; [total] is
    [Object.values(categoryData).reduce((a, b) => a + b, 0)]. *)
Fixpoint detailRows (total : float) (entries : list (string * value))
  : list DetailRow * outcome unit :=
  match entries with
  | [] => ([], Returned ())
  | (category, Num x) :: rest =>
      let row :=
        {| dr_category := category; dr_value := x;
           dr_percent :=
             (x / ToNumber (or_else (Num total) (Num 1)) * 100)%float |} in
      let '(rows, result) := detailRows total rest in
      (row :: rows, result)
  | _ :: _ => ([], TypeError)
  end.

Definition updateCategoryDetails (categoryData : StoredByCategory)
  : list DetailRow * outcome unit :=
  let total :=
    fold_left (λ a b, a + ToNumber b)%float
              (snd <$> Object_entries categoryData) 0%float in
  detailRows total (Object_entries categoryData).

(** The five names of [emissionsByCategory]. *)
Definition categories : list string :=
  ["transport"; "energy"; "food"; "shopping"; "waste"].


(** ** The week of a plan (lines 203-209 and 948-952)

    Days are counted in the local calendar from 1 January 1970, a
    Thursday.  [setDate(n)] moves a date to day [n] of its month, where
    day 0 and below and days past the end roll into the neighbouring
    months, so a date whose day of the month is [getDate] moves by
    [n - getDate] days. *)
Definition getDay (day : Z) : Z := ((day + 4) `mod` 7)%Z.

Definition setDate (getDate day n : Z) : Z := (day - getDate + n)%Z.

(** [monday] and [sunday] of lines 204-209, for a [today] that is day
    [getDate] of its month; [mondayDate] is [monday.getDate()]. *)
Definition weekOf (getDate mondayDate today : Z) : Z * Z :=
  let dayOfWeek := getDay today in
  let diff :=
    (getDate - dayOfWeek + (if (dayOfWeek =? 0)%Z then -6 else 1))%Z in
  let monday := setDate getDate today diff in
  let sunday := setDate mondayDate monday (mondayDate + 6)%Z in
  (monday, sunday).

(** ** The display tables of the habit list (lines 546-581, 637-649) *)

Definition names : gmap string (gmap string string) := list_to_map
  [("transport", list_to_map
      [("car_gasoline", "Carro a gasolina"); ("car_ethanol", "Carro a etanol");
       ("motorcycle", "Moto"); ("bus", "Ônibus"); ("subway", "Metrô/Trem");
       ("bicycle", "Bicicleta"); ("walking", "Caminhada");
       ("airplane", "Avião")]);
   ("energy", list_to_map
      [("electricity", "Eletricidade"); ("natural_gas", "Gás Natural");
       ("lpg", "Gás de Cozinha")]);
   ("food", list_to_map
      [("beef", "Carne bovina"); ("chicken", "Frango"); ("pork", "Porco");
       ("fish", "Peixe"); ("dairy", "Laticínios");
       ("vegetables", "Legumes/Verduras"); ("grains", "Grãos/Cereais")]);
   ("shopping", list_to_map
      [("electronics", "Eletrônicos"); ("clothing", "Roupas");
       ("furniture", "Móveis"); ("plastic", "Plástico"); ("paper", "Papel")]);
   ("waste", list_to_map
      [("landfill", "Aterro comum"); ("recycled", "Reciclado");
       ("composted", "Compostado")])].

(** The table of [getFrequencyText]. *)
Definition texts : gmap string string := list_to_map
  [("daily", "diariamente"); ("weekly_1", "1x por semana");
   ("weekly_2", "2x por semana"); ("weekly_3", "3x por semana");
   ("weekly_5", "5x por semana"); ("monthly_1", "1x por mês");
   ("monthly_2", "2x por mês"); ("monthly_4", "4x por mês")].

(** The own property [table[category][type]] of a table of tables. *)
Definition own {A} (table : gmap string (gmap string A))
    (category type : string) : option A :=
  table !! category ≫= λ types, types !! type.

(** [EMISSION_FACTORS] as the object of objects it is. *)
Definition factors : gmap string (gmap string float) := list_to_map
  [("transport", ef_transport EMISSION_FACTORS);
   ("energy", ef_energy EMISSION_FACTORS);
   ("food", ef_food EMISSION_FACTORS);
   ("shopping", ef_shopping EMISSION_FACTORS);
   ("waste", ef_waste EMISSION_FACTORS)].

(** ** Binary64 arithmetic

    Facts about [+], [-], [*] and [/] on binary64 values, derived from
    the IEEE 754 specification [SpecFloat] of the primitive operations. *)

Module Binary64.

Section Rounding.

Local Open Scope Z_scope.

Lemma digits2_pos_size p : digits2_pos p = Pos.size p.
Proof. induction p; simpl; congruence. Qed.

Lemma Zdigits2_lt_pow (m k : Z) : 0 < m → 0 ≤ k → m < 2 ^ k → Zdigits2 m ≤ k.
Proof.
  intros Hm Hk Hlt. destruct m as [|p|p]; try lia. simpl.
  rewrite digits2_pos_size.
  pose proof (Pos.size_le p) as Hle.
  apply (Pos2Z.pos_le_pos) in Hle. rewrite Pos2Z.inj_pow in Hle.
  destruct (Z_le_gt_dec (Z.pos (Pos.size p)) k) as [|Hgt]; [done|exfalso].
  assert (2 ^ (k + 1) ≤ 2 ^ Z.pos (Pos.size p)) by (apply Z.pow_le_mono_r; lia).
  rewrite Z.pow_add_r in H by lia. change (Z.pos p~0) with (2 * Z.pos p) in Hle. lia.
Qed.

Lemma shr_1_m mrs : 0 ≤ shr_m mrs → shr_m (shr_1 mrs) = shr_m mrs / 2.
Proof.
  destruct mrs as [m r s]; simpl. intros Hm.
  destruct m as [|p|p]; [reflexivity| |lia].
  destruct p as [p|p|]; simpl.
  - rewrite Pos2Z.inj_xI. apply Z.div_unique with 1; lia.
  - rewrite Pos2Z.inj_xO. apply Z.div_unique with 0; lia.
  - reflexivity.
Qed.

Lemma iter_shr_1_m p : ∀ mrs, 0 ≤ shr_m mrs →
  shr_m (SpecFloat.iter_pos shr_1 p mrs) = shr_m mrs / 2 ^ Z.pos p.
Proof.
  induction p as [p IH|p IH|]; intros mrs Hm; simpl.
  - assert (H1 : 0 ≤ shr_m (shr_1 mrs)).
    { rewrite shr_1_m by done. apply Z.div_pos; lia. }
    assert (H2 : 0 ≤ shr_m (SpecFloat.iter_pos shr_1 p (shr_1 mrs))).
    { rewrite IH by done. apply Z.div_pos; lia. }
    rewrite IH, IH, shr_1_m by done.
    rewrite !Z.div_div by lia.
    rewrite Pos2Z.inj_xI, Z.pow_add_r, Z.pow_mul_r by lia.
    rewrite <- Z.pow_mul_r, Z.mul_comm, Z.pow_mul_r by lia.
    change (2 ^ 1) with 2. f_equal. 
    replace (2 ^ 2) with (2 * 2) by reflexivity.
    rewrite Z.pow_mul_l. lia.
  - assert (H2 : 0 ≤ shr_m (SpecFloat.iter_pos shr_1 p mrs)).
    { rewrite IH by done. apply Z.div_pos; lia. }
    rewrite IH, IH by done. rewrite Z.div_div by lia.
    rewrite Pos2Z.inj_xO. f_equal.
    rewrite <- Z.pow_add_r by lia. f_equal. lia.
  - rewrite shr_1_m by done. reflexivity.
Qed.

Lemma shr_record_of_loc_m m l : shr_m (shr_record_of_loc m l) = m.
Proof. destruct l as [|[]]; reflexivity. Qed.

Lemma shr_fexp_spec m e l : 0 ≤ m →
  snd (shr_fexp prec emax m e l) = Z.max e (fexp prec emax (Zdigits2 m + e)) ∧
  shr_m (fst (shr_fexp prec emax m e l))
  = m / 2 ^ (snd (shr_fexp prec emax m e l) - e).
Proof.
  intros Hm. unfold shr_fexp, shr.
  destruct (fexp prec emax (Zdigits2 m + e) - e) as [|p|p] eqn:Hn; simpl.
  - split; [lia|]. rewrite Z.sub_diag, Z.div_1_r. apply shr_record_of_loc_m.
  - split; [lia|]. rewrite iter_shr_1_m by (rewrite shr_record_of_loc_m; done).
    rewrite shr_record_of_loc_m. f_equal. f_equal. lia.
  - split; [lia|]. rewrite Z.sub_diag, Z.div_1_r. apply shr_record_of_loc_m.
Qed.

Lemma round_nearest_even_bounds m l :
  m ≤ round_nearest_even m l ≤ m + 1.
Proof. destruct l as [|[]]; simpl; try lia. destruct (Z.even m); lia. Qed.

Lemma fexp_64 k : fexp prec emax k = Z.max (k - 53) (-1074).
Proof. reflexivity. Qed.

Lemma binary_round_aux_finite s M e l :
  0 < M → e ≤ 971 → M ≤ (2 ^ 53 - 2) * 2 ^ (971 - e) →
  SFfin (binary_round_aux prec emax s M e l) = true.
Proof.
  intros HM He Hle. unfold binary_round_aux.
  destruct (shr_fexp_spec M e l) as [He1 HM1]; [lia|].
  destruct (shr_fexp prec emax M e l) as [mrs1 e1]; simpl in He1, HM1.
  set (M2 := round_nearest_even (shr_m mrs1) (loc_of_shr_record mrs1)).
  pose proof (round_nearest_even_bounds (shr_m mrs1) (loc_of_shr_record mrs1))
    as HM2. fold M2 in HM2.
  assert (Hp : 0 < 2 ^ (971 - e)) by (apply Z.pow_pos_nonneg; lia).
  assert (Hd : Zdigits2 M ≤ 1024 - e).
  { apply Zdigits2_lt_pow; [lia|lia|].
    replace (1024 - e) with (53 + (971 - e)) by lia.
    rewrite Z.pow_add_r by lia. nia. }
  rewrite fexp_64 in He1.
  assert (He1' : e ≤ e1 ≤ 971) by lia.
  assert (Hp1 : 0 < 2 ^ (971 - e1)) by (apply Z.pow_pos_nonneg; lia).
  assert (Hp2 : 0 < 2 ^ (e1 - e)) by (apply Z.pow_pos_nonneg; lia).
  assert (HM1' : 0 ≤ shr_m mrs1 ≤ (2 ^ 53 - 2) * 2 ^ (971 - e1)).
  { rewrite HM1. split; [apply Z.div_pos; lia|].
    apply Z.div_le_upper_bound; [lia|].
    replace (971 - e) with ((e1 - e) + (971 - e1)) in Hle by lia.
    rewrite Z.pow_add_r in Hle by lia. nia. }
  destruct (shr_fexp_spec M2 e1 loc_Exact) as [He2 HM3]; [lia|].
  destruct (shr_fexp prec emax M2 e1 loc_Exact) as [mrs2 e2];
    simpl in He2, HM3.
  rewrite fexp_64 in He2.
  assert (Hd2 : Zdigits2 M2 ≤ 1024 - e1).
  { destruct (Z.eq_dec M2 0) as [->|Hnz]; [simpl; lia|].
    apply Zdigits2_lt_pow; [lia|lia|].
    replace (1024 - e1) with (53 + (971 - e1)) by lia.
    rewrite Z.pow_add_r by lia. nia. }
  assert (He2' : e1 ≤ e2 ≤ 971) by lia.
  assert (0 ≤ shr_m mrs2).
  { rewrite HM3. apply Z.div_pos; [lia|]. apply Z.pow_pos_nonneg; lia. }
  destruct (shr_m mrs2) as [|p|p]; [reflexivity| |lia].
  replace (e2 <=? emax - prec) with true; [reflexivity|].
  symmetry. apply Z.leb_le. change (emax - prec) with 971. lia.
Qed.



End Rounding.

Section Operations.

Local Open Scope float_scope.

Lemma valid_finite_bounds s m e :
  valid_binary (S754_finite s m e) = true → (Z.pos m < 2 ^ 53 ∧ e ≤ 971)%Z.
Proof.
  simpl. unfold bounded, canonical_mantissa. intros H.
  apply andb_prop in H as [Hc He].
  apply Z.eqb_eq in Hc. apply Z.leb_le in He.
  change (emax - prec)%Z with 971%Z in He. rewrite fexp_64 in Hc.
  split; [|done].
  pose proof (Pos.size_gt m) as Hgt.
  apply Pos2Z.pos_lt_pos in Hgt. rewrite Pos2Z.inj_pow in Hgt.
  rewrite digits2_pos_size in Hc.
  eapply Z.lt_le_trans; [exact Hgt|].
  apply Z.pow_le_mono_r; lia.
Qed.

Lemma SFeqb_refl_finite s m e :
  SFeqb (S754_finite s m e) (S754_finite s m e) = true.
Proof.
  unfold SFeqb, SFcompare.
  destruct s; rewrite Z.compare_refl, Pos.compare_cont_refl; reflexivity.
Qed.

Lemma is_nan_spec x : is_nan x = match Prim2SF x with S754_nan => true | _ => false end.
Proof.
  unfold is_nan. rewrite FloatAxioms.eqb_spec.
  destruct (Prim2SF x) as [[]|[]| |s m e]; try reflexivity.
  by rewrite SFeqb_refl_finite.
Qed.

Lemma is_infinity_spec x :
  is_infinity x = match Prim2SF x with S754_infinity _ => true | _ => false end.
Proof.
  unfold is_infinity. rewrite FloatAxioms.eqb_spec, FloatAxioms.abs_spec.
  change (Prim2SF infinity) with (S754_infinity false).
  destruct (Prim2SF x) as [[]|[]| |s m e]; reflexivity.
Qed.

Lemma is_zero_spec x :
  is_zero x = match Prim2SF x with S754_zero _ => true | _ => false end.
Proof.
  unfold is_zero. rewrite FloatAxioms.eqb_spec.
  change (Prim2SF zero) with (S754_zero false).
  destruct (Prim2SF x) as [[]|[]| |[] m e]; reflexivity.
Qed.

Lemma is_finite_spec x : is_finite x = SFfin (Prim2SF x).
Proof.
  unfold is_finite. rewrite is_nan_spec, is_infinity_spec.
  destruct (Prim2SF x); reflexivity.
Qed.

Lemma add_nan_l x : nan + x = nan.
Proof.
  apply Prim2SF_inj. rewrite FloatAxioms.add_spec.
  change (Prim2SF nan) with S754_nan. reflexivity.
Qed.

Lemma add_nan_r x : x + nan = nan.
Proof.
  apply Prim2SF_inj. rewrite FloatAxioms.add_spec.
  change (Prim2SF nan) with S754_nan.
  destruct (Prim2SF x); reflexivity.
Qed.

Lemma mul_nan_r x : x * nan = nan.
Proof.
  apply Prim2SF_inj. rewrite FloatAxioms.mul_spec.
  change (Prim2SF nan) with S754_nan.
  destruct (Prim2SF x); reflexivity.
Qed.

Lemma mul_const_finite x c sc mc ec :
  Prim2SF c = S754_finite sc mc ec →
  (ec ≤ 0)%Z → ((2 ^ 53 - 1) * Z.pos mc ≤ (2 ^ 53 - 2) * 2 ^ (- ec))%Z →
  is_finite x = true → is_finite (x * c) = true.
Proof.
  intros Hc Hec Hmc. rewrite !is_finite_spec, FloatAxioms.mul_spec, Hc.
  pose proof (Prim2SF_valid x) as Hv.
  destruct (Prim2SF x) as [s|s| |s m e]; try done.
  intros _. apply valid_finite_bounds in Hv as [Hm He].
  unfold SF64mul, SFmul. rewrite Pos2Z.inj_mul.
  assert (0 < 2 ^ (- ec))%Z by (apply Z.pow_pos_nonneg; lia).
  assert (2 ^ (- ec) ≤ 2 ^ (971 - (e + ec)))%Z by (apply Z.pow_le_mono_r; lia).
  apply binary_round_aux_finite; [lia|lia|nia].
Qed.

Lemma mul_half_finite x : is_finite x = true → is_finite (x * 0.5) = true.
Proof.
  apply (mul_const_finite x 0.5 false 4503599627370496 (-53)); [reflexivity|lia|].
  vm_compute. discriminate.
Qed.

Lemma mul_08_finite x : is_finite x = true → is_finite (x * 0.8) = true.
Proof.
  apply (mul_const_finite x 0.8 false 7205759403792794 (-53)); [reflexivity|lia|].
  vm_compute. discriminate.
Qed.

Lemma mul_zero_finite x z sz :
  Prim2SF z = S754_zero sz → is_finite x = true →
  ∃ s, Prim2SF (x * z) = S754_zero s.
Proof.
  intros Hz. rewrite is_finite_spec, FloatAxioms.mul_spec, Hz.
  destruct (Prim2SF x) as [s|s| |s m e]; try done; intros _; eexists;
    reflexivity.
Qed.

Lemma sub_zero x z sz :
  Prim2SF z = S754_zero sz → Prim2SF x ≠ S754_zero true → x - z = x.
Proof.
  intros Hz Hx. apply Prim2SF_inj. rewrite FloatAxioms.sub_spec, Hz.
  destruct (Prim2SF x) as [[]|s| |s m e]; try done; destruct sz; reflexivity.
Qed.

Lemma div_zero_not_finite x z sz :
  Prim2SF z = S754_zero sz → is_finite (x / z * 100) = false.
Proof.
  intros Hz.
  rewrite is_finite_spec, FloatAxioms.mul_spec, FloatAxioms.div_spec, Hz.
  destruct (Prim2SF x) as [s|s| |s m e]; reflexivity.
Qed.

Lemma Math_max_zero_nonneg x : (Math_max 0 x <? 0) = false.
Proof.
  unfold Math_max. change (is_nan 0) with false.
  change (get_sign 0) with false. cbn [orb].
  rewrite is_nan_spec, !FloatAxioms.ltb_spec.
  change (Prim2SF 0) with (S754_zero false).
  destruct (Prim2SF x) as [s|[]| |[] m e] eqn:Hx; cbn;
    rewrite ?Hx; reflexivity.
Qed.

Lemma Math_max_zero_id x :
  is_nan x = false → Prim2SF x ≠ S754_zero true → (x <? 0) = false →
  Math_max 0 x = x.
Proof.
  unfold Math_max. change (is_nan 0) with false.
  change (get_sign 0) with false. cbn [orb].
  intros Hn Hz Hlt. rewrite Hn, Hlt. rewrite is_nan_spec in Hn.
  rewrite FloatAxioms.ltb_spec in Hlt |- *.
  change (Prim2SF 0) with (S754_zero false) in *.
  destruct (Prim2SF x) as [[]|[]| |[] m e] eqn:Hx; cbn in *; try done;
    apply Prim2SF_inj; by rewrite Hx.
Qed.

Lemma baseline_value v :
  storable v →
  is_finite (ToNumber (or_else v (Num 0))) = true ∧
  is_nan (ToNumber (or_else v (Num 0))) = false ∧
  Prim2SF (ToNumber (or_else v (Num 0))) ≠ S754_zero true.
Proof.
  destruct v as [| |y|]; [by vm_compute..| |done].
  unfold or_else, ToBoolean, storable. intros Hfin.
  destruct (PrimFloat.is_zero y || is_nan y) eqn:Hb; cbn; [by vm_compute|].
  apply orb_false_elim in Hb as [Hz Hn].
  split; [done|]. split; [done|].
  rewrite is_zero_spec in Hz. by destruct (Prim2SF y).
Qed.

End Operations.

End Binary64.

(** ** The JavaScript primitives on known values *)

Module JSFacts.

Local Open Scope float_scope.

Example Math_round_ties_go_up :
  Math_round 2.5 = 3 ∧ Math_round (-2.5) = -2 ∧ Math_round 0.5 = 1 ∧
  Math_round (-0.5) = neg_zero ∧ Math_round 0.49999999999999994 = 0 ∧
  Math_round 12.5 = 13 ∧ Math_round (-3.7) = -4 ∧
  Math_round 4503599627370495.5 = 4503599627370496.
Proof. repeat split; by vm_compute. Qed.

Example Math_round_leaves_the_rest :
  Math_round 50 = 50 ∧ Math_round nan = nan ∧
  Math_round infinity = infinity ∧ Math_round neg_zero = neg_zero ∧
  Math_round 1e300 = 1e300.
Proof. repeat split; by vm_compute. Qed.

Example Math_max_on_zero :
  Math_max 0 neg_zero = 0 ∧ Math_max 0 nan = nan ∧ Math_max 0 (-5) = 0 ∧
  Math_max 0 7 = 7 ∧ Math_max 0 infinity = infinity.
Proof. repeat split; by vm_compute. Qed.

Example get_on_the_frequency_table :
  get FREQUENCY_FACTORS "daily" = Num 30 ∧
  get FREQUENCY_FACTORS "fortnightly" = Undefined ∧
  get FREQUENCY_FACTORS (ToPropertyKey None) = Undefined ∧
  get FREQUENCY_FACTORS "constructor" = Obj.
Proof. repeat split; by vm_compute. Qed.

Example toFixed1_values :
  toFixed1 72 = Some "72.0" ∧ toFixed1 10 = Some "10.0" ∧
  toFixed1 0.05 = Some "0.1" ∧ toFixed1 0.25 = Some "0.3" ∧
  toFixed1 0.35 = Some "0.3" ∧ toFixed1 1.45 = Some "1.4" ∧
  toFixed1 (-0.04) = Some "-0.0" ∧ toFixed1 neg_zero = Some "0.0" ∧
  toFixed1 (-2.5) = Some "-2.5" ∧ toFixed1 123.456 = Some "123.5" ∧
  toFixed1 nan = Some "NaN" ∧ toFixed1 infinity = Some "Infinity" ∧
  toFixed1 neg_infinity = Some "-Infinity" ∧ toFixed1 1e21 = None ∧
  toFixed1 999999999999999868928 = Some "999999999999999868928.0".
Proof. repeat split; by vm_compute. Qed.

Example JSON_number_values :
  JSON.number 72 = Num 72 ∧ JSON.number neg_zero = Num 0 ∧
  JSON.number nan = Null ∧ JSON.number infinity = Null ∧
  JSON.number neg_infinity = Null.
Proof. repeat split; by vm_compute. Qed.

Lemma get_Undefined table key :
  get table key = Undefined ↔ table !! key = None ∧ key ∉ Object_prototype.
Proof.
  unfold get. destruct (table !! key) as [x|].
  - split; [discriminate|]. intros [Hx _]. discriminate Hx.
  - case_decide as Hin; split; try discriminate; try done.
    intros [_ Hn]. by destruct Hn.
Qed.

End JSFacts.

(** ** The emissions engine *)

Module EngineFacts.

Import CarbonStorage.
Local Open Scope float_scope.

Lemma visit_annotate acc habit : snd (visit acc habit) = annotate habit.
Proof.
  unfold annotate, visit. by repeat case_decide.
Qed.

Lemma annotate_category habit : h_category (annotate habit) = h_category habit.
Proof. unfold annotate, visit. by repeat case_decide. Qed.

(** One pass of the loop body adds the habit's emissions to the
    accumulator of its category and to no other. *)
Lemma visit_category category acc habit t :
  categoryTotal category acc = Some t →
  categoryTotal category (fst (visit acc habit))
  = Some (if decide (h_category habit = category)
          then t + ToNumber (h_emissions (annotate habit)) else t).
Proof.
  unfold categoryTotal, annotate, visit.
  repeat case_decide; intros ?; simplify_eq/=; congruence.
Qed.

Lemma forEach_annotate acc hs : snd (forEach acc hs) = annotate <$> hs.
Proof.
  revert acc. induction hs as [|habit rest IH]; intros acc; [reflexivity|].
  cbn [forEach]. pose proof (visit_annotate acc habit) as Hv.
  destruct (visit acc habit) as [acc' habit']. cbn in Hv. subst habit'.
  specialize (IH acc'). destruct (forEach acc' rest) as [acc'' rest'].
  cbn in *. by rewrite IH.
Qed.

Lemma forEach_cons acc habit rest :
  fst (forEach acc (habit :: rest)) = fst (forEach (fst (visit acc habit)) rest).
Proof.
  cbn [forEach]. destruct (visit acc habit) as [acc' habit']. cbn [fst].
  by destruct (forEach acc' rest).
Qed.

(** After the loop each accumulator is the left-to-right sum of the
    emissions of the habits of its category. *)
Lemma forEach_category category hs : ∀ acc t,
  categoryTotal category acc = Some t →
  categoryTotal category (fst (forEach acc hs))
  = Some (fold_left (λ a b, a + b) (emissionsOf category (annotate <$> hs)) t).
Proof.
  induction hs as [|habit rest IH]; intros acc t Ht; [done|].
  rewrite forEach_cons.
  erewrite IH by (by apply visit_category).
  unfold emissionsOf. rewrite fmap_cons, filter_cons, annotate_category.
  by case_decide.
Qed.

Lemma fold_left_add_nan (l : list float) :
  fold_left (λ a b, a + b) l nan = nan.
Proof.
  induction l as [|x l IH]; [done|]. cbn. by rewrite Binary64.add_nan_l.
Qed.

Lemma fold_left_add_elem_nan (l : list float) t :
  nan ∈ l → fold_left (λ a b, a + b) l t = nan.
Proof.
  revert t. induction l as [|x l IH]; intros t Hin; [by inversion Hin|].
  apply elem_of_cons in Hin as [<-|Hin]; cbn.
  - by rewrite Binary64.add_nan_r, fold_left_add_nan.
  - by apply IH.
Qed.

Lemma calculateEmissions_unfold currentMonth store :
  calculateEmissions currentMonth store
  = (saveData
       {| habits := habits store;
          emissions :=
            upsert currentMonth (newAggregate currentMonth (habits store))
                   (emissions store);
          scenarios := scenarios store; weeklyPlans := weeklyPlans store;
          currentPlan := currentPlan store |},
     sum (Object_values (fst (forEach zeroByCategory (habits store))))).
Proof.
  unfold calculateEmissions, newAggregate, getHabits, getData.
  by destruct (forEach zeroByCategory (habits store)).
Qed.

(** The loop annotates a parsed copy of the habits; the document that
    is saved comes from a second [getData] and keeps the habits as they
    were. *)
Lemma calculateEmissions_habits currentMonth store :
  habits (fst (calculateEmissions currentMonth store))
  = JSON.habit <$> habits store.
Proof. by rewrite calculateEmissions_unfold. Qed.


(** C3: for the car habit (20 km, daily, gasoline) and the beef habit
    (1 kg a week) the recompute gives 72 for the first, 108 for the
    second and 180 in total, and these are the products 20 × 30 × 0.12 and
    1 × 4 × 27.0 as binary64 arithmetic evaluates them. *)
Theorem example_car_and_beef (currentMonth : string) :
  let hs := [carHabit; beefHabit] in
  h_emissions <$> snd (forEach zeroByCategory hs) = [Num 72; Num 108] ∧
  newAggregate currentMonth hs
  = {| month := Some currentMonth; total := Num 180;
       byCategory :=
         {| s_transport := Num 72; s_energy := Num 0; s_food := Num 108;
            s_shopping := Num 0; s_waste := Num 0 |} |} ∧
  snd (calculateEmissions currentMonth (storeOf hs)) = 180 ∧
  20 * 30 * 0.12 = 72 ∧ 1 * 4 * 27.0 = 108 ∧ 72 + 108 = 180.
Proof. repeat split; by vm_compute. Qed.






End EngineFacts.

(** ** The monthly ledger *)

Module LedgerFacts.

Import CarbonStorage.

Lemma upsert_nil m r : upsert m r [] = [r].
Proof. reflexivity. Qed.

Lemma upsert_cons m r x l :
  upsert m r (x :: l)
  = if decide (month x = Some m) then r :: l else x :: upsert m r l.
Proof.
  unfold upsert, findIndex. cbn [list_find]. case_decide; [done|].
  by destruct (list_find _ l) as [[i y]|].
Qed.

Lemma upsert_fmap (f : Aggregate → Aggregate) m r l :
  (∀ a, month (f a) = month a) →
  f <$> upsert m r l = upsert m (f r) (f <$> l).
Proof.
  intros Hf. induction l as [|x l IH]; [done|].
  rewrite fmap_cons, !upsert_cons, Hf. case_decide; [done|].
  by rewrite fmap_cons, IH.
Qed.

Lemma entriesFor_fmap (f : Aggregate → Aggregate) m l :
  (∀ a, month (f a) = month a) →
  entriesFor m (f <$> l) = f <$> entriesFor m l.
Proof.
  intros Hf. unfold entriesFor. induction l as [|x l IH]; [done|].
  rewrite fmap_cons, !filter_cons, Hf. case_decide; by rewrite ?fmap_cons, IH.
Qed.

(** A second upsert for the same month overwrites the entry the first
    one wrote, in place. *)
Lemma upsert_upsert m r r' l :
  month r = Some m →
  ∃ i, upsert m r l !! i = Some r ∧
       upsert m r' (upsert m r l) = <[i:=r']> (upsert m r l).
Proof.
  intros Hr. induction l as [|x l (i&Hi&IH)].
  - exists 0. split; [done|]. by rewrite upsert_nil, upsert_cons, decide_True.
  - rewrite upsert_cons. case_decide.
    + exists 0. split; [done|]. by rewrite upsert_cons, decide_True.
    + exists (S i). split; [done|]. by rewrite upsert_cons, decide_False, IH.
Qed.

Lemma entriesFor_upsert m r l :
  month r = Some m →
  length (entriesFor m (upsert m r l)) = Nat.max 1 (length (entriesFor m l)).
Proof.
  intros Hr. unfold entriesFor. induction l as [|x l IH].
  - by rewrite upsert_nil, filter_cons, decide_True.
  - rewrite upsert_cons, (filter_cons _ x). case_decide.
    + rewrite filter_cons, decide_True by done. cbn. lia.
    + by rewrite filter_cons, decide_False.
Qed.

Lemma entriesFor_upsert_single m r l :
  month r = Some m → (length (entriesFor m l) ≤ 1)%nat →
  entriesFor m (upsert m r l) = [r].
Proof.
  intros Hr. unfold entriesFor. induction l as [|x l IH]; intros Hlen.
  - by rewrite upsert_nil, filter_cons, decide_True.
  - rewrite upsert_cons. rewrite (filter_cons _ x) in Hlen.
    case_decide.
    + rewrite filter_cons, decide_True by done.
      destruct (filter _ l); [done|]. cbn in Hlen. lia.
    + rewrite filter_cons, decide_False by done. by apply IH.
Qed.

Lemma entriesFor_upsert_other m m' r l :
  month r = Some m → m' ≠ m →
  entriesFor m' (upsert m r l) = entriesFor m' l.
Proof.
  intros Hr Hne. unfold entriesFor. induction l as [|x l IH].
  - rewrite upsert_nil, filter_cons, decide_False; [done|]. congruence.
  - rewrite upsert_cons. case_decide as Hx.
    + rewrite !filter_cons, !decide_False; [done|congruence..].
    + rewrite !filter_cons. by rewrite IH.
Qed.

Lemma JSON_number_roundtrip x : JSON.roundtrip (JSON.number x) = JSON.number x.
Proof.
  unfold JSON.number.
  destruct (is_finite x) eqn:Hf; [|done].
  destruct (PrimFloat.is_zero x) eqn:Hz; cbn; unfold JSON.number.
  - reflexivity.
  - by rewrite Hf, Hz.
Qed.

Lemma JSON_roundtrip_idemp v :
  JSON.roundtrip (JSON.roundtrip v) = JSON.roundtrip v.
Proof. destruct v; cbn; try done. apply JSON_number_roundtrip. Qed.

Lemma JSON_aggregate_idemp a :
  JSON.aggregate (JSON.aggregate a) = JSON.aggregate a.
Proof.
  unfold JSON.aggregate, JSON.stored. cbn.
  by rewrite !JSON_roundtrip_idemp.
Qed.

Lemma JSON_number_storable x : storable (JSON.number x).
Proof.
  unfold JSON.number. destruct (is_finite x) eqn:Hf; [|done].
  by destruct (PrimFloat.is_zero x).
Qed.

(** The aggregate of a recompute, once stored, has only finite numbers
    in it. *)
Lemma newAggregate_storable m hs :
  storableAggregate (JSON.aggregate (newAggregate m hs)).
Proof. repeat split; apply JSON_number_storable. Qed.

Lemma find_upsert m r l :
  month r = Some m →
  ∃ i, list_find (λ e, month e = Some m) (upsert m r l) = Some (i, r).
Proof.
  intros Hr. induction l as [|x l [i IH]].
  - exists 0. rewrite upsert_nil. cbn. by rewrite decide_True.
  - rewrite upsert_cons. case_decide.
    + exists 0. cbn. by rewrite decide_True.
    + exists (S i). cbn. rewrite decide_False by done. by rewrite IH.
Qed.

Lemma history_calculateEmissions m store :
  getMonthlyHistory (fst (calculateEmissions m store))
  = upsert m (JSON.aggregate (newAggregate m (habits store)))
           (JSON.aggregate <$> emissions store).
Proof.
  rewrite EngineFacts.calculateEmissions_unfold.
  unfold getMonthlyHistory, getData, saveData. cbn.
  by apply upsert_fmap.
Qed.

(** What the scenario page reads after a recompute in the same month is
    the aggregate of that recompute. *)
Lemma getCurrentEmissions_calculateEmissions m store :
  getCurrentEmissions m (fst (calculateEmissions m store))
  = JSON.aggregate (newAggregate m (habits store)).
Proof.
  unfold getCurrentEmissions.
  change (emissions (getData (calculateEmissions m store).1))
    with (getMonthlyHistory (calculateEmissions m store).1).
  rewrite history_calculateEmissions.
  destruct (find_upsert m (JSON.aggregate (newAggregate m (habits store)))
              (JSON.aggregate <$> emissions store) eq_refl) as [i ->].
  reflexivity.
Qed.

Lemma storable_roundtrip v : storable v → storable (JSON.roundtrip v).
Proof.
  destruct v as [| |x|]; cbn; try done. intros _. apply JSON_number_storable.
Qed.

Lemma storableAggregate_roundtrip a :
  storableAggregate a → storableAggregate (JSON.aggregate a).
Proof.
  intros (?&?&?&?). repeat split; by apply storable_roundtrip.
Qed.

Lemma oneEntryPerMonth_fmap l :
  oneEntryPerMonth l → oneEntryPerMonth (JSON.aggregate <$> l).
Proof.
  intros Hl m. rewrite entriesFor_fmap, length_fmap by done. apply Hl.
Qed.

Lemma Forall_upsert (P : Aggregate → Prop) m r l :
  P r → Forall P l → Forall P (upsert m r l).
Proof.
  intros Hr Hl. induction Hl as [|x l Hx Hl IH]; [by repeat constructor|].
  rewrite upsert_cons. case_decide; by constructor.
Qed.

(** The invariant holds at the start and every recompute keeps it. *)
Lemma oneEntryPerMonth_initial : oneEntryPerMonth (emissions initialData).
Proof. intros m. cbn. lia. Qed.

Lemma oneEntryPerMonth_calculateEmissions m store :
  oneEntryPerMonth (emissions store) →
  oneEntryPerMonth (emissions (fst (calculateEmissions m store))).
Proof.
  intros Hinv m'.
  change (emissions (calculateEmissions m store).1)
    with (getMonthlyHistory (calculateEmissions m store).1).
  rewrite history_calculateEmissions.
  destruct (decide (m' = m)) as [->|Hne].
  - rewrite entriesFor_upsert_single; [done..|].
    rewrite entriesFor_fmap, length_fmap by done. apply Hinv.
  - rewrite entriesFor_upsert_other by done.
    rewrite entriesFor_fmap, length_fmap by done. apply Hinv.
Qed.

Lemma storable_calculateEmissions m store :
  Forall storableAggregate (emissions store) →
  Forall storableAggregate (emissions (fst (calculateEmissions m store))).
Proof.
  intros Hall.
  change (emissions (calculateEmissions m store).1)
    with (getMonthlyHistory (calculateEmissions m store).1).
  rewrite history_calculateEmissions.
  apply Forall_upsert; [apply newAggregate_storable|].
  apply Forall_fmap. eapply Forall_impl; [exact Hall|].
  intros a. apply storableAggregate_roundtrip.
Qed.

(** Every store the pages can bring about has a ledger with at most one
    entry a month and with finite numbers only. *)
Lemma reachable_ledger store :
  reachable store →
  oneEntryPerMonth (emissions store) ∧
  Forall storableAggregate (emissions store).
Proof.
  assert (Hsave : ∀ d,
    oneEntryPerMonth (emissions d) ∧ Forall storableAggregate (emissions d) →
    oneEntryPerMonth (emissions (saveData d)) ∧
    Forall storableAggregate (emissions (saveData d))).
  { intros d [H1 H2]. split; [by apply oneEntryPerMonth_fmap|].
    apply Forall_fmap. eapply Forall_impl; [exact H2|].
    intros a. apply storableAggregate_roundtrip. }
  assert (Hcalc : ∀ m d,
    oneEntryPerMonth (emissions d) ∧ Forall storableAggregate (emissions d) →
    oneEntryPerMonth (emissions (fst (calculateEmissions m d))) ∧
    Forall storableAggregate (emissions (fst (calculateEmissions m d)))).
  { intros m d [H1 H2]. split;
      [by apply oneEntryPerMonth_calculateEmissions
      |by apply storable_calculateEmissions]. }
  induction 1 as [|now m h s _ IH|m id s _ IH|m s _ IH|now c m sl s _ IH
                  |now c ws we goals s _ IH|planId goalIndex completed s _ IH].
  - split; [apply oneEntryPerMonth_initial|constructor].
  - apply Hcalc, Hsave, IH.
  - apply Hcalc, Hsave, IH.
  - apply Hcalc, IH.
  - apply (Hsave _ IH).
  - apply (Hsave _ IH).
  - unfold updatePlanProgress, getData.
    destruct (findIndex _ _) as [planIndex|]; [|done].
    destruct (weeklyPlans s !! planIndex) as [plan|]; [|done].
    destruct (at_index _ _); [|done]. apply (Hsave _ IH).
Qed.

(** So what a reachable store hands to the scenario page is storable. *)
Lemma reachable_baseline_storable m store :
  reachable store → storableAggregate (getCurrentEmissions m store).
Proof.
  intros [_ Hall]%reachable_ledger. unfold getCurrentEmissions, getData.
  destruct (list_find _ _) as [[i e]|] eqn:Hfind.
  - apply list_find_Some in Hfind as (Hi & _ & _).
    by eapply Forall_lookup_1.
  - by vm_compute.
Qed.

(** C4: two recomputes in the same month, whatever happens to the habits
    in between. The history is as long after the second as after the
    first, the month has as many entries, and the second run overwrites
    in place the entry the first one wrote, with the aggregate of the
    habits it sees. On a ledger that holds at most one entry for the
    month, as the ledger of every reachable store does, the month has
    exactly one entry after each run: the aggregate that run computed. *)
Theorem recompute_twice_same_month (currentMonth : string) (store : Data)
    (hs' : list Habit) :
  let store1 := fst (calculateEmissions currentMonth store) in
  let store2 :=
    fst (calculateEmissions currentMonth (withHabits hs' store1)) in
  let first := JSON.aggregate (newAggregate currentMonth (habits store)) in
  let second := JSON.aggregate (newAggregate currentMonth hs') in
  length (getMonthlyHistory store2) = length (getMonthlyHistory store1) ∧
  length (entriesFor currentMonth (getMonthlyHistory store2))
  = length (entriesFor currentMonth (getMonthlyHistory store1)) ∧
  (∃ i, getMonthlyHistory store1 !! i = Some first ∧
        getMonthlyHistory store2 = <[i:=second]> (getMonthlyHistory store1)) ∧
  ((length (entriesFor currentMonth (getMonthlyHistory store)) ≤ 1)%nat →
   entriesFor currentMonth (getMonthlyHistory store1) = [first] ∧
   entriesFor currentMonth (getMonthlyHistory store2) = [second]) ∧
  (reachable store →
   (length (entriesFor currentMonth (getMonthlyHistory store)) ≤ 1)%nat).
Proof.
  intros store1 store2 first second.
  assert (H1 : getMonthlyHistory store1
               = upsert currentMonth first (JSON.aggregate <$> emissions store))
    by apply history_calculateEmissions.
  assert (H2 : getMonthlyHistory store2
               = upsert currentMonth second (getMonthlyHistory store1)).
  { unfold store2. rewrite history_calculateEmissions.
    change (emissions (withHabits hs' store1)) with (getMonthlyHistory store1).
    change (habits (withHabits hs' store1)) with hs'. fold second.
    f_equal. rewrite H1, upsert_fmap by done. unfold first.
    rewrite JSON_aggregate_idemp. f_equal.
    rewrite <- list_fmap_compose. apply list_fmap_ext.
    intros ? a _. apply JSON_aggregate_idemp. }
  destruct (upsert_upsert currentMonth first second
              (JSON.aggregate <$> emissions store) eq_refl) as (i & Hi & Hup).
  rewrite <- H1 in Hi, Hup. rewrite <- H2 in Hup.
  assert (Hcount : length (entriesFor currentMonth (getMonthlyHistory store2))
            = length (entriesFor currentMonth (getMonthlyHistory store1))).
  { rewrite H2, entriesFor_upsert by done.
    rewrite H1, entriesFor_upsert by done. lia. }
  split; [by rewrite Hup, length_insert|]. split; [done|].
  split; [by exists i|].
  split; [|intros [Hinv _]%reachable_ledger; apply Hinv].
  intros Hle.
  assert (Hone : entriesFor currentMonth (getMonthlyHistory store1) = [first]).
  { rewrite H1. apply entriesFor_upsert_single; [done|].
    by rewrite entriesFor_fmap, length_fmap. }
  split; [done|].
  rewrite H2. apply entriesFor_upsert_single; [done|]. by rewrite Hone.
Qed.

Lemma recompute_twice_same_month_witness :
  let store := storeOf [carHabit] in
  let store1 := fst (calculateEmissions "2026-11" store) in
  let store2 :=
    fst (calculateEmissions "2026-11"
           (withHabits [carHabit; beefHabit] store1)) in
  (length (entriesFor "2026-11" (getMonthlyHistory store)) ≤ 1)%nat ∧
  length (getMonthlyHistory store2) = length (getMonthlyHistory store1) ∧
  entriesFor "2026-11" (getMonthlyHistory store2)
  = [JSON.aggregate (newAggregate "2026-11" [carHabit; beefHabit])].
Proof.
  intros store store1 store2.
  assert (Hle : (length (entriesFor "2026-11" (getMonthlyHistory store))
                 ≤ 1)%nat)
    by (vm_compute; lia).
  destruct (recompute_twice_same_month "2026-11" store [carHabit; beefHabit])
    as (Hlen & _ & _ & Hone & _).
  split; [exact Hle|]. split; [exact Hlen|]. exact (proj2 (Hone Hle)).
Defined.

End LedgerFacts.

(** ** The scenario projector *)

Module ScenarioFacts.

Import CarbonStorage Scenarios.
Local Open Scope float_scope.

(** With a baseline total of zero the preview shows the number [0]. *)
Lemma preview_percent_zero_baseline b sl :
  total b = Num 0 →
  pv_reductionPercent (updateScenarioResults b sl) = Plain 0.
Proof. intros Hb. unfold updateScenarioResults. by rewrite Hb. Qed.

(** With a baseline total of zero the saved percentage is the text of a
    [NaN] or of an infinity, whatever the sliders say. *)
Lemma saved_percent_zero_baseline b sl :
  total b = Num 0 →
  ∃ x, sc_reductionPercent (createBtn_scenario b sl) = Fixed1 x ∧
       is_finite x = false.
Proof.
  intros Hb. unfold createBtn_scenario. rewrite Hb. cbn.
  eexists. split; [reflexivity|].
  by apply (Binary64.div_zero_not_finite _ 0 false).
Qed.

(** C5, at the empty baseline [{ total: 0, byCategory: {} }] with all
    sliders at zero: the preview shows the number 0, but the percentage
    that the save handler stores is [NaN.toFixed(1)], the string "NaN",
    and with one meat-free day it is [Infinity.toFixed(1)], the string
    "Infinity". *)
Theorem saved_percent_of_empty_baseline :
  pv_reductionPercent (updateScenarioResults defaultEmissions zeroSliders)
  = Plain 0 ∧
  sc_reductionPercent (createBtn_scenario defaultEmissions zeroSliders)
  = Fixed1 nan ∧
  toFixed1 nan = Some "NaN" ∧
  sc_reductionPercent (createBtn_scenario defaultEmissions oneMeatFreeDay)
  = Fixed1 infinity ∧
  toFixed1 infinity = Some "Infinity".
Proof. repeat split; by vm_compute. Qed.

(** What a click on the save button appends to the stored scenarios: the
    scenario built from the current baseline, as JSON writes it. *)
Lemma createBtn_click_last now createdAt currentMonth sl store :
  sc_projectedEmissions
    <$> last (getScenarios (createBtn_click now createdAt currentMonth sl
                              store))
  = Some (JSON.roundtrip
            (sc_projectedEmissions
               (createBtn_scenario (getCurrentEmissions currentMonth store)
                                   sl))).
Proof.
  unfold createBtn_click, addScenario, getScenarios, saveData, getData.
  cbn [scenarios JSON.data]. rewrite fmap_app. cbn [fmap list_fmap].
  by rewrite last_snoc.
Qed.

(** C7: for every baseline and every slider position the preview shows
    [Math.max(0, p)], where [p] is the number the save handler stores as
    [projectedEmissions]; [p] is the baseline total less the four cuts;
    the preview is never below zero; and [p] can be: the empty baseline
    with one meat-free day is saved, and persisted, with -2. *)
Theorem preview_clamped_saved_unclamped (b : Aggregate) (sl : Sliders) :
  let p :=
    baselineTotal b
    - ToNumber (or_else (s_transport (byCategory b)) (Num 0)) * 0.5
      * (carReduction sl / 100)
    - meatReduction sl * 0.5 * 4
    - ToNumber (or_else (s_energy (byCategory b)) (Num 0))
      * (energyReduction sl / 100)
    - ToNumber (or_else (s_waste (byCategory b)) (Num 0)) * 0.8
      * (recyclingIncrease sl / 100) in
  sc_projectedEmissions (createBtn_scenario b sl) = Num p ∧
  pv_projectedEmissions (updateScenarioResults b sl) = Math_max 0 p ∧
  (pv_projectedEmissions (updateScenarioResults b sl) <? 0) = false ∧
  sc_projectedEmissions (createBtn_scenario defaultEmissions oneMeatFreeDay)
  = Num (-2) ∧
  (-2 <? 0) = true ∧
  (∀ now createdAt currentMonth,
     sc_projectedEmissions
       <$> getScenarios
             (createBtn_click now createdAt currentMonth oneMeatFreeDay
                           initialData)
     = [Num (-2)]).
Proof.
  intros p. split; [reflexivity|]. split; [reflexivity|].
  split; [apply Binary64.Math_max_zero_nonneg|].
  repeat split; by vm_compute.
Qed.

(** C8 fails as stated: a ledger whose only habit has a negative
    quantity has a baseline total of -4, and with all sliders at zero the
    preview projects 0, not -4. *)
Lemma zero_sliders_preview_differs :
  baselineTotal (baselineOf "2026-11" [returnedPaper]) = -4 ∧
  pv_projectedEmissions
    (updateScenarioResults (baselineOf "2026-11" [returnedPaper]) zeroSliders)
  = 0 ∧
  pv_projectedEmissions
    (updateScenarioResults (baselineOf "2026-11" [returnedPaper]) zeroSliders)
  ≠ baselineTotal (baselineOf "2026-11" [returnedPaper]).
Proof.
  split; [by vm_compute|]. split; [by vm_compute|].
  intros H. apply (f_equal (λ x, x <? 0)) in H. by vm_compute in H.
Qed.

Lemma zero_cut x : is_finite x = true → ∃ s, Prim2SF (x * 0) = S754_zero s.
Proof. by apply (Binary64.mul_zero_finite x 0 false). Qed.

(** C8, amended: for a baseline whose numbers are finite, as every
    aggregate read back from storage is, zero sliders give on the save
    path a projected total equal to the baseline total
    ([currentEmissions.total || 0]) and in the preview the maximum of 0
    and that total, which is the total itself unless it is negative. *)
Theorem zero_sliders_projection (b : Aggregate) :
  storableAggregate b →
  sc_projectedEmissions (createBtn_scenario b zeroSliders)
  = Num (baselineTotal b) ∧
  pv_projectedEmissions (updateScenarioResults b zeroSliders)
  = Math_max 0 (baselineTotal b) ∧
  ((baselineTotal b <? 0) = false →
   pv_projectedEmissions (updateScenarioResults b zeroSliders)
   = baselineTotal b).
Proof.
  intros (Ht & Htr & Hen & Hwa).
  apply Binary64.baseline_value in Ht as (_ & Hnan & Hneg).
  apply Binary64.baseline_value in Htr as (Htr & _ & _).
  apply Binary64.baseline_value in Hen as (Hen & _ & _).
  apply Binary64.baseline_value in Hwa as (Hwa & _ & _).
  fold (baselineTotal b) in Hnan, Hneg.
  apply Binary64.mul_half_finite, zero_cut in Htr as [s1 H1].
  apply zero_cut in Hen as [s3 H3].
  apply Binary64.mul_08_finite, zero_cut in Hwa as [s4 H4].
  assert (Hp : baselineTotal b
      - ToNumber (or_else (s_transport (byCategory b)) (Num 0)) * 0.5 * 0
      - 0
      - ToNumber (or_else (s_energy (byCategory b)) (Num 0)) * 0
      - ToNumber (or_else (s_waste (byCategory b)) (Num 0)) * 0.8 * 0
      = baselineTotal b).
  { rewrite (Binary64.sub_zero _ _ _ H1 Hneg).
    rewrite (Binary64.sub_zero _ 0 false eq_refl Hneg).
    rewrite (Binary64.sub_zero _ _ _ H3 Hneg).
    by rewrite (Binary64.sub_zero _ _ _ H4 Hneg). }
  assert (Hsaved : sc_projectedEmissions (createBtn_scenario b zeroSliders)
                   = Num (baselineTotal b)).
  { etransitivity; [|exact (f_equal Num Hp)]. reflexivity. }
  assert (Hlive : pv_projectedEmissions (updateScenarioResults b zeroSliders)
                  = Math_max 0 (baselineTotal b)).
  { etransitivity; [|exact (f_equal (Math_max 0) Hp)]. reflexivity. }
  split; [done|]. split; [done|].
  intros Hlt. rewrite Hlive. by apply Binary64.Math_max_zero_id.
Qed.

Lemma zero_sliders_projection_witness :
  storableAggregate (baselineOf "2026-11" [carHabit; beefHabit]) ∧
  baselineTotal (baselineOf "2026-11" [carHabit; beefHabit]) = 180 ∧
  sc_projectedEmissions
    (createBtn_scenario (baselineOf "2026-11" [carHabit; beefHabit]) zeroSliders)
  = Num (baselineTotal (baselineOf "2026-11" [carHabit; beefHabit])) ∧
  pv_projectedEmissions
    (updateScenarioResults (baselineOf "2026-11" [carHabit; beefHabit])
                           zeroSliders)
  = baselineTotal (baselineOf "2026-11" [carHabit; beefHabit]).
Proof.
  assert (Hs : storableAggregate (baselineOf "2026-11" [carHabit; beefHabit]))
    by (repeat split; vm_compute; reflexivity).
  destruct (zero_sliders_projection _ Hs) as (Hsaved & _ & Hlive).
  split; [exact Hs|]. split; [vm_compute; reflexivity|].
  split; [exact Hsaved|]. apply Hlive. vm_compute. reflexivity.
Defined.

End ScenarioFacts.

(** ** The weekly plan tracker *)

Module PlanFacts.

Import CarbonStorage.
Local Open Scope float_scope.

(** An unknown plan id changes nothing. *)
Lemma updatePlanProgress_unknown_plan store planId goalIndex completed :
  findIndex (λ p, p_id p = planId) (weeklyPlans store) = None →
  updatePlanProgress planId goalIndex completed store = store.
Proof. intros Hf. unfold updatePlanProgress, getData. by rewrite Hf. Qed.

(** A goal index outside the goals of the plan changes nothing. *)
Lemma updatePlanProgress_out_of_range store planId goalIndex completed
    planIndex plan :
  findIndex (λ p, p_id p = planId) (weeklyPlans store) = Some planIndex →
  weeklyPlans store !! planIndex = Some plan →
  at_index (p_goals plan) goalIndex = None →
  updatePlanProgress planId goalIndex completed store = store.
Proof.
  intros Hf Hp Hg. unfold updatePlanProgress, getData.
  by rewrite Hf, Hp, Hg.
Qed.

Lemma at_index_out_of_range {A} (l : list A) (i : Z) :
  (i < 0 ∨ Z.of_nat (length l) ≤ i)%Z → at_index l i = None.
Proof.
  intros Hi. unfold at_index. destruct (0 <=? i)%Z eqn:Hle; [|done].
  apply Z.leb_le in Hle. apply lookup_ge_None. lia.
Qed.

(** An in-range toggle: the goal gets the given flag, the progress is
    the rounded percentage of completed goals, and the plan is marked
    completed when all goals are; otherwise the mark stays as it was. *)
Lemma updatePlanProgress_in_range store planId goalIndex completed
    planIndex plan goal :
  findIndex (λ p, p_id p = planId) (weeklyPlans store) = Some planIndex →
  weeklyPlans store !! planIndex = Some plan →
  at_index (p_goals plan) goalIndex = Some goal →
  let goals :=
    <[Z.to_nat goalIndex :=
        {| g_value := g_value goal; g_completed := completed |}]>
      (p_goals plan) in
  let completedGoals := length (filter (λ g, g_completed g = true) goals) in
  weeklyPlans (updatePlanProgress planId goalIndex completed store)
    !! planIndex
  = Some
      {| p_id := p_id plan; p_createdAt := p_createdAt plan;
         p_weekStart := p_weekStart plan; p_weekEnd := p_weekEnd plan;
         p_goals := goals;
         p_progress :=
           JSON.number
             (Math_round (of_length completedGoals
                          / of_length (length goals) * 100));
         p_completed :=
           if decide (completedGoals = length goals) then true
           else p_completed plan |}.
Proof.
  intros Hf Hp Hg goals completedGoals.
  unfold updatePlanProgress, getData. rewrite Hf, Hp, Hg.
  unfold saveData, JSON.data. cbn [weeklyPlans].
  rewrite list_lookup_fmap, list_lookup_insert_eq
    by (by eapply lookup_lt_Some).
  reflexivity.
Qed.

(** Once a plan is marked completed no toggle takes the mark away. *)
Lemma completed_mark_stays store planId goalIndex completed planIndex plan
    goal :
  findIndex (λ p, p_id p = planId) (weeklyPlans store) = Some planIndex →
  weeklyPlans store !! planIndex = Some plan →
  at_index (p_goals plan) goalIndex = Some goal →
  p_completed plan = true →
  p_completed
    <$> weeklyPlans (updatePlanProgress planId goalIndex completed store)
          !! planIndex
  = Some true.
Proof.
  intros Hf Hp Hg Hc.
  rewrite (updatePlanProgress_in_range _ _ _ _ _ _ _ Hf Hp Hg). cbn.
  rewrite Hc. by case_decide.
Qed.

(** The example of the specification: a fresh plan of four goals. *)
Lemma four_goals_example :
  let s0 := planStore 1 ["transport_public"; "food_vegetarian";
                         "energy_saving"; "waste_recycling"] in
  let s2 := updatePlanProgress 1 1 true (updatePlanProgress 1 0 true s0) in
  let s4 := updatePlanProgress 1 3 true (updatePlanProgress 1 2 true s2) in
  (λ p, (p_progress p, p_completed p)) <$> weeklyPlans s2
  = [(Num 50, false)] ∧
  (λ p, (p_progress p, p_completed p)) <$> weeklyPlans s4
  = [(Num 100, true)] ∧
  updatePlanProgress 1 4 true s2 = s2 ∧
  updatePlanProgress 1 (-1) true s2 = s2 ∧
  updatePlanProgress 7 0 true s2 = s2.
Proof. repeat split; by vm_compute. Qed.

(** C6, where the code departs from it: a plan with one goal, the goal
    ticked and then unticked. After the second toggle no goal is
    completed and the progress is 0, but the plan is still marked
    completed: the mark is set when all goals are completed and never
    cleared. *)
Theorem completed_mark_is_never_cleared :
  let s0 := planStore 1 ["energy_saving"] in
  let s1 := updatePlanProgress 1 0 true s0 in
  let s2 := updatePlanProgress 1 0 false s1 in
  (λ p, (g_completed <$> p_goals p, p_progress p, p_completed p))
    <$> weeklyPlans s1
  = [([true], Num 100, true)] ∧
  (λ p, (g_completed <$> p_goals p, p_progress p, p_completed p))
    <$> weeklyPlans s2
  = [([false], Num 0, true)].
Proof. split; by vm_compute. Qed.

(** Creating a plan appends it to the stored plans and makes it the
    current one. *)
Lemma addWeeklyPlan_appends now createdAt weekStart weekEnd goals store :
  ∃ plan,
    p_id plan = now ∧
    weeklyPlans (addWeeklyPlan now createdAt weekStart weekEnd goals store)
    = ((JSON.plan <$> weeklyPlans store) ++ [plan])%list ∧
    currentPlan (addWeeklyPlan now createdAt weekStart weekEnd goals store)
    = Some now.
Proof.
  eexists. split; [|split; [|reflexivity]].
  2: { unfold addWeeklyPlan, saveData, JSON.data, getData.
       cbn [weeklyPlans]. rewrite fmap_app. reflexivity. }
  reflexivity.
Qed.

(** The order the claim speaks of is made by the page, not by the store:
    [loadPreviousPlans] sorts what [getPreviousPlans] returned. *)
Lemma insertNewestFirst_perm p l : insertNewestFirst p l ≡ₚ p :: l.
Proof.
  induction l as [|q l IH]; [done|]. cbn.
  destruct (p_id q <=? p_id p)%Z; [done|].
  rewrite IH. apply Permutation_swap.
Qed.

Lemma insertNewestFirst_sorted p l :
  StronglySorted (λ a b, (p_id b ≤ p_id a)%Z) l →
  StronglySorted (λ a b, (p_id b ≤ p_id a)%Z) (insertNewestFirst p l).
Proof.
  induction 1 as [|q l Hl IH Hq]; cbn; [by repeat constructor|].
  destruct (p_id q <=? p_id p)%Z eqn:Hle.
  - apply Z.leb_le in Hle. constructor; [by constructor|].
    constructor; [done|]. eapply Forall_impl; [exact Hq|].
    intros r Hr. cbn in *. lia.
  - apply Z.leb_gt in Hle. constructor; [done|].
    rewrite insertNewestFirst_perm. constructor; [lia|done].
Qed.

Lemma sortNewestFirst_perm l : sortNewestFirst l ≡ₚ l.
Proof.
  induction l as [|p l IH]; [done|]. cbn.
  by rewrite insertNewestFirst_perm, IH.
Qed.

Lemma sortNewestFirst_sorted l :
  StronglySorted (λ a b, (p_id b ≤ p_id a)%Z) (sortNewestFirst l).
Proof.
  induction l as [|p l IH]; [constructor|].
  by apply insertNewestFirst_sorted.
Qed.

Lemma shownPreviousPlans_sorted store :
  StronglySorted (λ a b, (p_id b ≤ p_id a)%Z) (shownPreviousPlans store) ∧
  shownPreviousPlans store `sublist_of`
    sortNewestFirst (getPreviousPlans store) ∧
  sortNewestFirst (getPreviousPlans store) ≡ₚ getPreviousPlans store.
Proof.
  split; [|split; [apply sublist_take|apply sortNewestFirst_perm]].
  unfold shownPreviousPlans.
  pose proof (sortNewestFirst_sorted (getPreviousPlans store)) as Hs.
  rewrite <- (take_drop 5 (sortNewestFirst _)) in Hs.
  by apply StronglySorted_app_1_l in Hs.
Qed.

Lemma shown_plans_example :
  p_id <$> shownPreviousPlans threePlans = [2; 1]%Z.
Proof. by vm_compute. Qed.

(** C9 fails as stated: of three plans created at instants 1, 2 and 3
    the previous ones come back as 1 then 2, oldest first. *)
Lemma previous_plans_come_oldest_first :
  p_id <$> weeklyPlans threePlans = [1; 2; 3]%Z ∧
  currentPlan threePlans = Some 3%Z ∧
  p_id <$> getPreviousPlans threePlans = [1; 2]%Z ∧
  ¬ mostRecentFirst (getPreviousPlans threePlans).
Proof.
  split; [by vm_compute|]. split; [by vm_compute|]. split; [by vm_compute|].
  unfold mostRecentFirst. intros Hsorted.
  assert (Hids : StronglySorted (λ a b : Z, (b < a)%Z)
                   (p_id <$> getPreviousPlans threePlans)).
  { induction Hsorted as [|p l _ IH Hall]; [constructor|].
    rewrite fmap_cons. constructor; [done|].
    rewrite Forall_fmap. exact Hall. }
  vm_compute in Hids. inversion Hids as [|? ? _ Hall]; subst.
  inversion Hall as [|? ? Hlt _]; subst. by vm_compute in Hlt.
Qed.

(** C9, amended: the previous plans are exactly the stored plans whose id
    differs from the current plan id (all of them when no plan is
    current), and they come in the order in which they are stored, which
    is the order of creation, oldest first. *)
Theorem previous_plans_in_stored_order (store : Data) :
  getPreviousPlans store
  = filter (λ p, Some (p_id p) ≠ currentPlan store) (weeklyPlans store) ∧
  (∀ p, p ∈ getPreviousPlans store
        ↔ p ∈ weeklyPlans store ∧ Some (p_id p) ≠ currentPlan store) ∧
  sublist (getPreviousPlans store) (weeklyPlans store) ∧
  (currentPlan store = None → getPreviousPlans store = weeklyPlans store) ∧
  (∀ now createdAt weekStart weekEnd goals,
     (∀ p, p ∈ weeklyPlans store → p_id p ≠ now) →
     getPreviousPlans
       (addWeeklyPlan now createdAt weekStart weekEnd goals store)
     = JSON.plan <$> weeklyPlans store).
Proof.
  split; [reflexivity|]. split.
  { intros p. unfold getPreviousPlans, getData.
    rewrite list_elem_of_filter. tauto. }
  split; [apply sublist_filter|]. split.
  { intros Hnone. unfold getPreviousPlans, getData. rewrite Hnone.
    induction (weeklyPlans store) as [|p l IH]; [done|].
    rewrite filter_cons_True by done. by rewrite IH. }
  intros now createdAt weekStart weekEnd goals Hfresh.
  unfold getPreviousPlans, addWeeklyPlan, saveData, JSON.data, getData.
  cbn [weeklyPlans currentPlan p_id].
  rewrite fmap_app, filter_app. cbn [fmap list_fmap].
  rewrite filter_cons_False, filter_nil, app_nil_r by (cbn; naive_solver).
  induction (weeklyPlans store) as [|p l IH]; [done|].
  rewrite fmap_cons, filter_cons_True.
  - rewrite IH; [done|]. intros q Hq. apply Hfresh. by right.
  - cbn. intros [= Heq]. apply (Hfresh p); [by left|done].
Qed.

Lemma previous_plans_in_stored_order_witness :
  currentPlan initialData = None ∧
  getPreviousPlans initialData = weeklyPlans initialData ∧
  (∀ p, p ∈ weeklyPlans (planStore 1 ["energy_saving"]) → p_id p ≠ 2%Z) ∧
  getPreviousPlans
    (addWeeklyPlan 2 "2026-11-09T10:00:00.000Z" "2026-11-09" "2026-11-15"
       (goalsOf ["food_vegetarian"]) (planStore 1 ["energy_saving"]))
  = JSON.plan <$> weeklyPlans (planStore 1 ["energy_saving"]).
Proof.
  assert (Hfresh : ∀ p, p ∈ weeklyPlans (planStore 1 ["energy_saving"]) →
                        p_id p ≠ 2%Z).
  { intros p Hp. vm_compute in Hp. apply list_elem_of_singleton in Hp.
    by subst p. }
  destruct (previous_plans_in_stored_order initialData)
    as (_ & _ & _ & Hnone & _).
  destruct (previous_plans_in_stored_order (planStore 1 ["energy_saving"]))
    as (_ & _ & _ & _ & Hadd).
  split; [reflexivity|]. split; [exact (Hnone eq_refl)|].
  split; [exact Hfresh|]. exact (Hadd 2%Z _ _ _ _ Hfresh).
Defined.

End PlanFacts.

(** ** The store: what is written is what is read *)

Module StoreFacts.

Import CarbonStorage.

Lemma fmap_idemp {A} (f : A → A) (l : list A) :
  (∀ x, f (f x) = f x) → f <$> (f <$> l) = f <$> l.
Proof.
  intros Hf. rewrite <- list_fmap_compose. apply list_fmap_ext.
  intros ? x _. apply Hf.
Qed.

Lemma JSON_habit_idemp h : JSON.habit (JSON.habit h) = JSON.habit h.
Proof.
  unfold JSON.habit. cbn. by rewrite !LedgerFacts.JSON_roundtrip_idemp.
Qed.

Lemma JSON_scenario_idemp s : JSON.scenario (JSON.scenario s) = JSON.scenario s.
Proof.
  unfold JSON.scenario. cbn. by rewrite !LedgerFacts.JSON_roundtrip_idemp.
Qed.

Lemma JSON_plan_idemp p : JSON.plan (JSON.plan p) = JSON.plan p.
Proof.
  unfold JSON.plan. cbn. by rewrite !LedgerFacts.JSON_roundtrip_idemp.
Qed.

Lemma saveData_idemp d : saveData (saveData d) = saveData d.
Proof.
  unfold saveData, JSON.data. cbn. f_equal.
  - apply fmap_idemp, JSON_habit_idemp.
  - apply fmap_idemp, LedgerFacts.JSON_aggregate_idemp.
  - apply fmap_idemp, JSON_scenario_idemp.
  - apply fmap_idemp, JSON_plan_idemp.
Qed.

Lemma calculateEmissions_saved m d :
  saveData (fst (calculateEmissions m d)) = fst (calculateEmissions m d).
Proof.
  rewrite EngineFacts.calculateEmissions_unfold. apply saveData_idemp.
Qed.

Lemma reachable_saved store : reachable store → saveData store = store.
Proof.
  induction 1 as [|now m h s _ IH|m id s _ IH|m s _ IH|now c m sl s _ IH
                  |now c ws we goals s _ IH|planId goalIndex completed s _ IH].
  - reflexivity.
  - apply calculateEmissions_saved.
  - apply calculateEmissions_saved.
  - apply calculateEmissions_saved.
  - apply saveData_idemp.
  - apply saveData_idemp.
  - unfold updatePlanProgress, getData.
    destruct (findIndex _ _) as [planIndex|]; [|done].
    destruct (weeklyPlans s !! planIndex) as [plan|]; [|done].
    destruct (at_index _ _); [|done]. apply saveData_idemp.
Qed.

Lemma reachable_habits store :
  reachable store → JSON.habit <$> habits store = habits store.
Proof. intros Hr. exact (f_equal habits (reachable_saved _ Hr)). Qed.

Lemma reachable_emissions store :
  reachable store → JSON.aggregate <$> emissions store = emissions store.
Proof. intros Hr. exact (f_equal emissions (reachable_saved _ Hr)). Qed.

Lemma reachable_weeklyPlans store :
  reachable store → JSON.plan <$> weeklyPlans store = weeklyPlans store.
Proof. intros Hr. exact (f_equal weeklyPlans (reachable_saved _ Hr)). Qed.

(** X19: the document of every reachable store is a fixed point of the
    JSON round trip: writing it and reading it back changes nothing. And
    for any document at all, saving twice is saving once. *)
Theorem stored_document_round_trips (store : Data) :
  reachable store →
  getData (saveData store) = store ∧
  ∀ d, saveData (saveData d) = saveData d.
Proof.
  intros Hr. split; [exact (reachable_saved _ Hr)|apply saveData_idemp].
Qed.

Lemma stored_document_round_trips_witness :
  reachable (addHabit 1 "2026-11" carHabit initialData) ∧
  getData (saveData (addHabit 1 "2026-11" carHabit initialData))
  = addHabit 1 "2026-11" carHabit initialData.
Proof.
  assert (Hr : reachable (addHabit 1 "2026-11" carHabit initialData))
    by (apply reach_addHabit, reach_init).
  split; [exact Hr|]. exact (proj1 (stored_document_round_trips _ Hr)).
Defined.

End StoreFacts.

(** ** The ledger: keys, frames and read-after-write *)

Module LedgerMore.

Import CarbonStorage.

Lemma upsert_lookup_other m r l i e :
  l !! i = Some e → month e ≠ Some m → upsert m r l !! i = Some e.
Proof.
  revert i. induction l as [|x l IH]; intros i Hi Hne; [done|].
  rewrite LedgerFacts.upsert_cons. destruct i as [|i]; cbn in Hi.
  - injection Hi as ->. by rewrite decide_False.
  - case_decide; [done|]. cbn. by apply IH.
Qed.

Lemma upsert_absent m r l :
  entriesFor m l = [] → upsert m r l = (l ++ [r])%list.
Proof.
  unfold entriesFor. induction l as [|x l IH]; intros Hnone; [done|].
  rewrite LedgerFacts.upsert_cons. rewrite filter_cons in Hnone.
  case_decide; [done|]. cbn. by rewrite IH.
Qed.

Lemma upsert_present m r l :
  entriesFor m l ≠ [] → length (upsert m r l) = length l.
Proof.
  unfold entriesFor. induction l as [|x l IH]; intros Hsome; [done|].
  rewrite LedgerFacts.upsert_cons. rewrite filter_cons in Hsome.
  case_decide; [done|]. cbn. by rewrite IH.
Qed.

Lemma snd_find_cons {A} (P : A → Prop) `{!∀ x, Decision (P x)} x l :
  snd <$> list_find P (x :: l)
  = if decide (P x) then Some x else snd <$> list_find P l.
Proof.
  cbn. case_decide; [done|]. by destruct (list_find P l) as [[i e]|].
Qed.

Lemma find_upsert_other m m' r l :
  month r = Some m → m' ≠ m →
  snd <$> list_find (λ e, month e = Some m') (upsert m r l)
  = snd <$> list_find (λ e, month e = Some m') l.
Proof.
  intros Hr Hne. induction l as [|x l IH].
  - rewrite LedgerFacts.upsert_nil. cbn. rewrite decide_False; [done|].
    congruence.
  - rewrite LedgerFacts.upsert_cons. case_decide as Hx.
    + rewrite !snd_find_cons. rewrite !decide_False; [done|congruence..].
    + rewrite !snd_find_cons. by rewrite IH.
Qed.

Lemma getCurrentEmissions_find m store :
  getCurrentEmissions m store
  = default defaultEmissions
      (snd <$> list_find (λ e, month e = Some m) (emissions store)).
Proof.
  unfold getCurrentEmissions, getData.
  by destruct (list_find _ _) as [[i e]|].
Qed.

Lemma find_fmap_aggregate m l :
  snd <$> list_find (λ e, month e = Some m) (JSON.aggregate <$> l)
  = JSON.aggregate <$> (snd <$> list_find (λ e, month e = Some m) l).
Proof.
  rewrite list_find_fmap.
  by destruct (list_find _ l) as [[i e]|].
Qed.

Lemma find_absent m (l : list Aggregate) :
  entriesFor m l = [] → list_find (λ e, month e = Some m) l = None.
Proof.
  unfold entriesFor. intros Hnone. apply list_find_None.
  induction l as [|x l IH]; [constructor|].
  rewrite filter_cons in Hnone. case_decide; [done|]. constructor; auto.
Qed.

Lemma keyed_calculateEmissions m store :
  Forall (λ a, is_Some (month a)) (emissions store) →
  Forall (λ a, is_Some (month a))
         (emissions (fst (calculateEmissions m store))).
Proof.
  intros Hall.
  change (emissions (calculateEmissions m store).1)
    with (getMonthlyHistory (calculateEmissions m store).1).
  rewrite LedgerFacts.history_calculateEmissions.
  apply LedgerFacts.Forall_upsert; [by eexists|].
  apply Forall_fmap. eapply Forall_impl; [exact Hall|]. by intros a.
Qed.

Lemma reachable_keyed store :
  reachable store → Forall (λ a, is_Some (month a)) (emissions store).
Proof.
  assert (Hsave : ∀ d, Forall (λ a, is_Some (month a)) (emissions d) →
                       Forall (λ a, is_Some (month a)) (emissions (saveData d))).
  { intros d Hd. apply Forall_fmap. eapply Forall_impl; [exact Hd|].
    by intros a. }
  induction 1 as [|now m h s _ IH|m id s _ IH|m s _ IH|now c m sl s _ IH
                  |now c ws we goals s _ IH|planId goalIndex completed s _ IH].
  - constructor.
  - apply keyed_calculateEmissions, Hsave, IH.
  - apply keyed_calculateEmissions, Hsave, IH.
  - apply keyed_calculateEmissions, IH.
  - apply (Hsave _ IH).
  - apply (Hsave _ IH).
  - unfold updatePlanProgress, getData.
    destruct (findIndex _ _) as [planIndex|]; [|done].
    destruct (weeklyPlans s !! planIndex) as [plan|]; [|done].
    destruct (at_index _ _); [|done]. apply (Hsave _ IH).
Qed.

Lemma NoDup_months l :
  oneEntryPerMonth l → Forall (λ a, is_Some (month a)) l →
  NoDup (month <$> l).
Proof.
  induction l as [|a l IH]; intros Hone Hkey; [constructor|].
  apply Forall_cons in Hkey as [[m Hm] Hkey].
  rewrite fmap_cons. constructor.
  - intros (b & Hb & Hin)%list_elem_of_fmap.
    specialize (Hone m). unfold entriesFor in Hone.
    rewrite filter_cons_True in Hone by done.
    assert (b ∈ filter (λ e, month e = Some m) l)
      by (apply list_elem_of_filter; split; congruence).
    destruct (filter _ l); [by inversion H|]. cbn in Hone. lia.
  - apply IH; [|done]. intros m'. specialize (Hone m').
    unfold entriesFor in *. rewrite filter_cons in Hone.
    case_decide; cbn in Hone; lia.
Qed.



(** X2: a recompute touches the entry of the current month and nothing
    else. Every entry of another month stays where it is; the entries of
    any other month are the same as before; if the month had no entry the
    new one goes to the end of the history, and otherwise the history
    keeps its length. ("Before" is the ledger as it is read back from
    storage.) *)
Theorem recompute_leaves_other_months (currentMonth : string)
    (store : Data) :
  let before := JSON.aggregate <$> emissions store in
  let after :=
    getMonthlyHistory (fst (calculateEmissions currentMonth store)) in
  let fresh := JSON.aggregate (newAggregate currentMonth (habits store)) in
  (∀ i e, before !! i = Some e → month e ≠ Some currentMonth →
          after !! i = Some e) ∧
  (∀ m, m ≠ currentMonth → entriesFor m after = entriesFor m before) ∧
  (entriesFor currentMonth before = [] → after = (before ++ [fresh])%list) ∧
  (entriesFor currentMonth before ≠ [] → length after = length before).
Proof.
  intros before after fresh. unfold after.
  rewrite LedgerFacts.history_calculateEmissions. fold before fresh.
  split; [intros i e; apply upsert_lookup_other|].
  split; [intros m Hm; by apply LedgerFacts.entriesFor_upsert_other|].
  split; [apply upsert_absent|apply upsert_present].
Qed.

(** X3: reading after writing. After a recompute, the current emissions
    of that month are the aggregate of the stored habits, as JSON keeps
    it; the current emissions of any other month are what they were; and
    a month without an entry reads as the default
    [{ total: 0, byCategory: {} }]. *)
Theorem current_emissions_after_recompute (currentMonth : string)
    (store : Data) :
  getCurrentEmissions currentMonth
    (fst (calculateEmissions currentMonth store))
  = JSON.aggregate (newAggregate currentMonth (habits store)) ∧
  (∀ m, m ≠ currentMonth →
        getCurrentEmissions m (fst (calculateEmissions currentMonth store))
        = JSON.aggregate (getCurrentEmissions m store)) ∧
  (∀ m, entriesFor m (emissions store) = [] →
        getCurrentEmissions m store = defaultEmissions).
Proof.
  split; [apply LedgerFacts.getCurrentEmissions_calculateEmissions|].
  split.
  - intros m Hm. rewrite !getCurrentEmissions_find.
    change (emissions (calculateEmissions currentMonth store).1)
      with (getMonthlyHistory (calculateEmissions currentMonth store).1).
    rewrite LedgerFacts.history_calculateEmissions.
    rewrite find_upsert_other by done. rewrite find_fmap_aggregate.
    by destruct (snd <$> list_find _ (emissions store)).
  - intros m Hnone. rewrite getCurrentEmissions_find.
    by rewrite find_absent.
Qed.

End LedgerMore.

(** ** The habit list: adding, deleting, and what a row shows *)

Module HabitFacts.

Import CarbonStorage.

Lemma addHabit_unfold now m habit store :
  addHabit now m habit store
  = fst (calculateEmissions m
           (saveData (withHabits (habits store ++ [stamped now habit])
                                 store))).
Proof. reflexivity. Qed.

Lemma deleteHabit_unfold m id store :
  deleteHabit m id store
  = fst (calculateEmissions m
           (saveData (withHabits (filter (λ h, h_id h ≠ id) (habits store))
                                 store))).
Proof. reflexivity. Qed.

Lemma saved_habits hs store :
  habits (saveData (withHabits hs store)) = JSON.habit <$> hs.
Proof. reflexivity. Qed.

(** The habits after an edit of the list followed by a recompute. *)
Lemma edited_habits m hs store :
  habits (fst (calculateEmissions m (saveData (withHabits hs store))))
  = JSON.habit <$> hs.
Proof.
  rewrite EngineFacts.calculateEmissions_habits, saved_habits.
  apply StoreFacts.fmap_idemp, StoreFacts.JSON_habit_idemp.
Qed.

Lemma edited_current m hs store :
  getCurrentEmissions m
    (fst (calculateEmissions m (saveData (withHabits hs store))))
  = JSON.aggregate (newAggregate m (JSON.habit <$> hs)).
Proof.
  by rewrite LedgerFacts.getCurrentEmissions_calculateEmissions, saved_habits.
Qed.

Lemma JSON_default : JSON.aggregate defaultEmissions = defaultEmissions.
Proof. reflexivity. Qed.

Lemma getCurrentEmissions_saved m store :
  getCurrentEmissions m (saveData store)
  = JSON.aggregate (getCurrentEmissions m store).
Proof.
  rewrite !LedgerMore.getCurrentEmissions_find.
  change (emissions (saveData store))
    with (JSON.aggregate <$> emissions store).
  rewrite LedgerMore.find_fmap_aggregate.
  by destruct (snd <$> list_find _ (emissions store)).
Qed.

Lemma getCurrentEmissions_calculateEmissions_other m m' store :
  m' ≠ m →
  getCurrentEmissions m' (fst (calculateEmissions m store))
  = JSON.aggregate (getCurrentEmissions m' store).
Proof.
  intros Hm. rewrite !LedgerMore.getCurrentEmissions_find.
  change (emissions (calculateEmissions m store).1)
    with (getMonthlyHistory (calculateEmissions m store).1).
  rewrite LedgerFacts.history_calculateEmissions.
  rewrite LedgerMore.find_upsert_other by done.
  rewrite LedgerMore.find_fmap_aggregate.
  by destruct (snd <$> list_find _ (emissions store)).
Qed.

Lemma reachable_current m store :
  reachable store →
  JSON.aggregate (getCurrentEmissions m store) = getCurrentEmissions m store.
Proof.
  intros Hr. rewrite <- getCurrentEmissions_saved.
  by rewrite (StoreFacts.reachable_saved _ Hr).
Qed.

Lemma edited_other m m' hs store :
  reachable store → m' ≠ m →
  getCurrentEmissions m'
    (fst (calculateEmissions m (saveData (withHabits hs store))))
  = getCurrentEmissions m' store.
Proof.
  intros Hr Hm. rewrite getCurrentEmissions_calculateEmissions_other by done.
  rewrite !LedgerMore.getCurrentEmissions_find.
  change (emissions (saveData (withHabits hs store)))
    with (JSON.aggregate <$> emissions store).
  rewrite (StoreFacts.reachable_emissions _ Hr).
  rewrite <- LedgerMore.getCurrentEmissions_find. by apply reachable_current.
Qed.

Lemma filter_id_fmap id (hs : list Habit) :
  JSON.habit <$> filter (λ h, h_id h ≠ id) hs
  = filter (λ h, h_id h ≠ id) (JSON.habit <$> hs).
Proof.
  induction hs as [|h hs IH]; [done|].
  rewrite fmap_cons, !filter_cons. cbn [JSON.habit h_id].
  case_decide; [rewrite fmap_cons|]; by rewrite IH.
Qed.

Lemma filter_absent id (hs : list Habit) :
  id ∉ h_id <$> hs → filter (λ h, h_id h ≠ id) hs = hs.
Proof.
  intros Hnot. induction hs as [|h hs IH]; [done|].
  rewrite fmap_cons in Hnot. apply not_elem_of_cons in Hnot as [Hne Hnot].
  rewrite filter_cons_True by done. by rewrite IH.
Qed.

(** X4: adding a habit. On a reachable store, [addHabit] puts the habit,
    with the clock as its id and as JSON keeps it, at the end of the
    habit list; the entry of the current month becomes the aggregate of
    the new list; the entries of the other months, the scenarios and the
    plans stay as they are. *)
Theorem addHabit_effect (now : Z) (currentMonth : string) (habit : Habit)
    (store : Data) :
  reachable store →
  let after := addHabit now currentMonth habit store in
  let hs := (getHabits store ++ [JSON.habit (stamped now habit)])%list in
  getHabits after = hs ∧
  getCurrentEmissions currentMonth after
  = JSON.aggregate (newAggregate currentMonth hs) ∧
  (∀ m, m ≠ currentMonth →
        getCurrentEmissions m after = getCurrentEmissions m store) ∧
  getScenarios after = getScenarios store ∧
  weeklyPlans after = weeklyPlans store ∧
  currentPlan after = currentPlan store.
Proof.
  intros Hr after hs. unfold after, getHabits, getScenarios, getData.
  rewrite addHabit_unfold.
  assert (Hhs : JSON.habit <$> (habits store ++ [stamped now habit])%list
                = hs).
  { rewrite fmap_app. unfold hs, getHabits, getData.
    by rewrite (StoreFacts.reachable_habits _ Hr). }
  split; [by rewrite edited_habits|].
  split; [by rewrite edited_current, Hhs|].
  split; [intros m Hm; by apply edited_other|].
  pose proof (StoreFacts.reachable_saved _ Hr) as Hsaved.
  rewrite EngineFacts.calculateEmissions_unfold. cbn.
  split; [|split].
  - rewrite StoreFacts.fmap_idemp by apply StoreFacts.JSON_scenario_idemp.
    exact (f_equal scenarios Hsaved).
  - rewrite StoreFacts.fmap_idemp by apply StoreFacts.JSON_plan_idemp.
    exact (f_equal weeklyPlans Hsaved).
  - reflexivity.
Qed.

Lemma addHabit_effect_witness :
  reachable (addHabit 1 "2026-11" carHabit initialData) ∧
  getHabits (addHabit 2 "2026-11" beefHabit
               (addHabit 1 "2026-11" carHabit initialData))
  = (getHabits (addHabit 1 "2026-11" carHabit initialData)
     ++ [JSON.habit (stamped 2 beefHabit)])%list.
Proof.
  assert (Hr : reachable (addHabit 1 "2026-11" carHabit initialData))
    by (apply reach_addHabit, reach_init).
  split; [exact Hr|].
  exact (proj1 (addHabit_effect 2 "2026-11" beefHabit _ Hr)).
Defined.

(** X5: deleting a habit. On a reachable store, [deleteHabit id] removes
    every habit with that id and keeps the others in their order; the
    entry of the current month becomes the aggregate of what is left; an
    id that no habit has leaves the list as it is; and deleting a habit
    right after adding it, when the clock gave it an id no other habit
    has, gives back the list from before. *)
Theorem deleteHabit_effect (currentMonth : string) (id : Z) (store : Data) :
  reachable store →
  let after := deleteHabit currentMonth id store in
  let hs := filter (λ h, h_id h ≠ id) (getHabits store) in
  getHabits after = hs ∧
  getCurrentEmissions currentMonth after
  = JSON.aggregate (newAggregate currentMonth hs) ∧
  (∀ m, m ≠ currentMonth →
        getCurrentEmissions m after = getCurrentEmissions m store) ∧
  (id ∉ h_id <$> getHabits store → getHabits after = getHabits store) ∧
  (∀ habit, id ∉ h_id <$> getHabits store →
        getHabits (deleteHabit currentMonth id
                     (addHabit id currentMonth habit store))
        = getHabits store).
Proof.
  intros Hr after hs. unfold after, getHabits, getData.
  rewrite deleteHabit_unfold.
  assert (Hhs : JSON.habit <$> filter (λ h, h_id h ≠ id) (habits store)
                = hs).
  { rewrite filter_id_fmap. unfold hs, getHabits, getData.
    by rewrite (StoreFacts.reachable_habits _ Hr). }
  split; [by rewrite edited_habits|].
  split; [by rewrite edited_current, Hhs|].
  split; [intros m Hm; by apply edited_other|].
  split.
  - intros Hnot. rewrite edited_habits, Hhs. by apply filter_absent.
  - intros habit Hnot. rewrite deleteHabit_unfold, edited_habits.
    rewrite addHabit_unfold, edited_habits, filter_id_fmap.
    rewrite StoreFacts.fmap_idemp by apply StoreFacts.JSON_habit_idemp.
    rewrite fmap_app, (StoreFacts.reachable_habits _ Hr).
    rewrite filter_app, filter_absent by done. cbn [fmap list_fmap].
    rewrite filter_cons_False by (cbn; intros H; by apply H).
    by rewrite filter_nil, app_nil_r.
Qed.

Lemma deleteHabit_effect_witness :
  reachable (addHabit 2 "2026-11" beefHabit
               (addHabit 1 "2026-11" carHabit initialData)) ∧
  h_id <$> getHabits
             (deleteHabit "2026-11" 1
                (addHabit 2 "2026-11" beefHabit
                   (addHabit 1 "2026-11" carHabit initialData)))
  = [2%Z] ∧
  getHabits
    (deleteHabit "2026-11" 1
       (addHabit 2 "2026-11" beefHabit
          (addHabit 1 "2026-11" carHabit initialData)))
  = filter (λ h, h_id h ≠ 1%Z)
      (getHabits (addHabit 2 "2026-11" beefHabit
                    (addHabit 1 "2026-11" carHabit initialData))).
Proof.
  assert (Hr : reachable (addHabit 2 "2026-11" beefHabit
                            (addHabit 1 "2026-11" carHabit initialData)))
    by (apply reach_addHabit, reach_addHabit, reach_init).
  split; [exact Hr|]. split; [vm_compute; reflexivity|].
  exact (proj1 (deleteHabit_effect "2026-11" 1 _ Hr)).
Defined.

Lemma entered_reachable store : entered store → reachable store.
Proof. induction 1; by constructor. Qed.

Lemma unannotated_fmap hs : unannotated hs → unannotated (JSON.habit <$> hs).
Proof.
  intros Hall. apply Forall_fmap. eapply Forall_impl; [exact Hall|].
  intros h Hh. cbn. by rewrite Hh.
Qed.

Lemma unannotated_addHabit now m habit store :
  h_emissions habit = Undefined → unannotated (habits store) →
  unannotated (habits (addHabit now m habit store)).
Proof.
  intros Hh Hall. rewrite addHabit_unfold, edited_habits.
  apply unannotated_fmap, Forall_app. split; [done|].
  by repeat constructor.
Qed.

Lemma entered_unannotated store : entered store → unannotated (habits store).
Proof.
  induction 1 as [|now m type frequency distance s _ IH
                  |now m type consumption s _ IH
                  |now m category type quantity s _ _ IH
                  |m id s _ IH|now c m sl s _ IH
                  |now c ws we goals s _ IH|planId goalIndex completed s _ IH].
  - constructor.
  - by apply unannotated_addHabit.
  - by apply unannotated_addHabit.
  - by apply unannotated_addHabit.
  - rewrite deleteHabit_unfold, edited_habits.
    apply unannotated_fmap. unfold unannotated in *.
    rewrite Forall_forall in *.
    intros h [_ Hin]%list_elem_of_filter. by apply IH.
  - by apply unannotated_fmap.
  - by apply unannotated_fmap.
  - unfold updatePlanProgress, getData.
    destruct (findIndex _ _) as [planIndex|]; [|done].
    destruct (weeklyPlans s !! planIndex) as [plan|]; [|done].
    destruct (at_index _ _); [|done]. by apply unannotated_fmap.
Qed.

(** X6: the emissions a habit row shows. The recompute writes
    [habit.emissions] on a parsed copy of the habits and saves another
    document, so when the habits come from the five forms no stored
    habit ever has an [emissions] property, and the row of every habit in
    the list reads ['0'] where [habit.emissions.toFixed(1)] was meant;
    the ledger does count the habit. *)
Theorem habit_rows_show_zero (store : Data) :
  entered store →
  (∀ habit, habit ∈ getHabits store →
            h_emissions habit = Undefined ∧
            emissionsLabel habit = Returned (TLiteral "0")) ∧
  (∀ m, getHabits (fst (calculateEmissions m store)) = getHabits store) ∧
  (∀ m, getCurrentEmissions m (fst (calculateEmissions m store))
        = JSON.aggregate (newAggregate m (getHabits store))).
Proof.
  intros He. pose proof (entered_unannotated _ He) as Hall.
  pose proof (entered_reachable _ He) as Hr.
  split; [|split].
  - intros habit Hin. unfold getHabits, getData in Hin.
    unfold unannotated in Hall. rewrite Forall_forall in Hall.
    specialize (Hall _ Hin).
    split; [done|]. unfold emissionsLabel. by rewrite Hall.
  - intros m. unfold getHabits, getData.
    rewrite EngineFacts.calculateEmissions_habits.
    by apply StoreFacts.reachable_habits.
  - intros m. apply LedgerFacts.getCurrentEmissions_calculateEmissions.
Qed.

Lemma habit_rows_show_zero_witness :
  entered (addHabit 1 "2026-11" (transportForm "car_gasoline" "daily" 20)
             initialData) ∧
  emissionsLabel <$> getHabits
    (addHabit 1 "2026-11" (transportForm "car_gasoline" "daily" 20)
       initialData)
  = [Returned (TLiteral "0")] ∧
  total (getCurrentEmissions "2026-11"
           (addHabit 1 "2026-11" (transportForm "car_gasoline" "daily" 20)
              initialData))
  = Num 72 ∧
  (∀ habit,
     habit ∈ getHabits
       (addHabit 1 "2026-11" (transportForm "car_gasoline" "daily" 20)
          initialData) →
     h_emissions habit = Undefined ∧
     emissionsLabel habit = Returned (TLiteral "0")).
Proof.
  assert (He : entered
                 (addHabit 1 "2026-11"
                    (transportForm "car_gasoline" "daily" 20) initialData))
    by (apply entered_transport, entered_init).
  split; [exact He|]. split; [vm_compute; reflexivity|].
  split; [vm_compute; reflexivity|].
  exact (proj1 (habit_rows_show_zero _ He)).
Defined.

Lemma visit_unknown acc habit :
  ¬ knownCategory habit → fst (visit acc habit) = acc.
Proof.
  unfold knownCategory, tableOf, visit. intros Hno.
  repeat case_decide; try done; exfalso; apply Hno; by eexists.
Qed.

Lemma forEach_filter_known hs : ∀ acc,
  fst (forEach acc hs) = fst (forEach acc (filter knownCategory hs)).
Proof.
  induction hs as [|h hs IH]; intros acc; [done|].
  rewrite filter_cons. case_decide as Hk.
  - rewrite !EngineFacts.forEach_cons. cbn [fst]. apply IH.
  - rewrite EngineFacts.forEach_cons. cbn [fst].
    rewrite (visit_unknown _ _ Hk). apply IH.
Qed.

(** X7: habits whose category is none of the five are ignored by the
    engine: the aggregate of a habit list, and the total the recompute
    returns, are those of the list without them, and such a habit gets
    the emissions 0. A list with no other habits gives the zero
    aggregate. *)
Theorem unknown_categories_are_ignored (currentMonth : string)
    (store : Data) :
  let known := filter knownCategory (habits store) in
  newAggregate currentMonth (habits store) = newAggregate currentMonth known ∧
  snd (calculateEmissions currentMonth store)
  = snd (calculateEmissions currentMonth (withHabits known store)) ∧
  (∀ habit, ¬ knownCategory habit → h_emissions (annotate habit) = Num 0) ∧
  (known = [] →
   newAggregate currentMonth (habits store)
   = {| month := Some currentMonth; total := Num 0;
        byCategory := asStored zeroByCategory |}).
Proof.
  intros known.
  assert (Hagg : newAggregate currentMonth (habits store)
                 = newAggregate currentMonth known).
  { unfold newAggregate. by rewrite forEach_filter_known. }
  split; [done|]. split; [|split].
  - rewrite !EngineFacts.calculateEmissions_unfold. cbn [snd].
    by rewrite forEach_filter_known.
  - intros habit Hno. unfold knownCategory, tableOf in Hno.
    unfold annotate, visit.
    repeat case_decide; try done; exfalso; apply Hno; by eexists.
  - intros Hnil. rewrite Hagg, Hnil. reflexivity.
Qed.

End HabitFacts.

(** ** The weekly plans: the current plan, a toggle, and the list shown *)

Module PlanMore.

Import CarbonStorage.

(** The two ways a toggle ends. *)
Lemma updatePlanProgress_cases planId goalIndex completed store :
  updatePlanProgress planId goalIndex completed store = store ∨
  ∃ planIndex plan goal,
    weeklyPlans store !! planIndex = Some plan ∧ p_id plan = planId ∧
    (0 ≤ goalIndex)%Z ∧
    p_goals plan !! Z.to_nat goalIndex = Some goal ∧
    updatePlanProgress planId goalIndex completed store
    = saveData
        {| habits := habits store; emissions := emissions store;
           scenarios := scenarios store;
           weeklyPlans :=
             <[planIndex := toggled goalIndex completed plan goal]>
               (weeklyPlans store);
           currentPlan := currentPlan store |}.
Proof.
  unfold updatePlanProgress, getData, findIndex.
  destruct (list_find _ _) as [[planIndex plan0]|] eqn:Hfind; [|by left].
  apply list_find_Some in Hfind as (Hlook & Hid & _). cbn [fmap option_fmap option_map fst].
  cbn. rewrite Hlook.
  destruct (at_index (p_goals plan0) goalIndex) as [goal|] eqn:Hgoal;
    [|by left].
  right. exists planIndex, plan0, goal. unfold at_index in Hgoal.
  destruct (0 <=? goalIndex)%Z eqn:Hle; [|done]. apply Z.leb_le in Hle.
  done.
Qed.

Lemma all_completed_length (goals : list Goal) :
  Forall (λ g, g_completed g = true) goals →
  length (filter (λ g, g_completed g = true) goals) = length goals.
Proof.
  induction 1 as [|g l Hg _ IH]; [done|].
  rewrite filter_cons_True by done. cbn. by rewrite IH.
Qed.

Lemma marked_fmap plans : Forall marked plans → Forall marked (JSON.plan <$> plans).
Proof.
  intros Hall. apply Forall_fmap. eapply Forall_impl; [exact Hall|].
  by intros p.
Qed.

Lemma marked_calculateEmissions m store :
  Forall marked (weeklyPlans store) →
  Forall marked (weeklyPlans (fst (calculateEmissions m store))).
Proof.
  intros Hall. rewrite EngineFacts.calculateEmissions_unfold.
  by apply marked_fmap.
Qed.

Lemma reachable_marked store : reachable store → Forall marked (weeklyPlans store).
Proof.
  induction 1 as [|now m h s _ IH|m id s _ IH|m s _ IH|now c m sl s _ IH
                  |now c ws we goals s _ IH|planId goalIndex completed s _ IH].
  - constructor.
  - by apply marked_calculateEmissions, marked_fmap.
  - by apply marked_calculateEmissions, marked_fmap.
  - by apply marked_calculateEmissions.
  - by apply marked_fmap.
  - apply marked_fmap, Forall_app. split; [done|].
    constructor; [|constructor]. intros Hne Hall. exfalso. cbn in *.
    destruct goals as [|g goals]; [done|].
    rewrite fmap_cons in Hall. by apply Forall_cons in Hall as [? _].
  - destruct (updatePlanProgress_cases planId goalIndex completed s)
      as [->|(planIndex & plan & goal & Hplan & _ & _ & _ & ->)]; [done|].
    apply marked_fmap. cbn [weeklyPlans].
    apply Forall_insert; [done|]. intros _ Hall. cbn in *.
    rewrite decide_True; [done|]. by apply all_completed_length.
Qed.

(** X8: the current plan. [getCurrentPlan] answers [null] while no plan
    was created; the plan it returns is a stored plan with the current
    id and is never among the previous plans; and right after
    [addWeeklyPlan], when the clock gave an id that is not 0 and that no
    stored plan has, it returns the new plan, with every goal unticked,
    progress 0 and not completed. *)
Theorem current_plan_is_the_new_plan (store : Data) :
  (currentPlan store = None → getCurrentPlan store = None) ∧
  (∀ p, getCurrentPlan store = Some p →
        p ∈ weeklyPlans store ∧ currentPlan store = Some (p_id p) ∧
        p ∉ getPreviousPlans store) ∧
  (∀ now createdAt weekStart weekEnd goals,
     now ≠ 0%Z → now ∉ p_id <$> weeklyPlans store →
     getCurrentPlan (addWeeklyPlan now createdAt weekStart weekEnd goals
                       store)
     = Some {| p_id := now; p_createdAt := createdAt;
               p_weekStart := weekStart; p_weekEnd := weekEnd;
               p_goals :=
                 (λ goal, {| g_value := g_value goal;
                             g_completed := false |}) <$> goals;
               p_progress := Num 0; p_completed := false |}).
Proof.
  split; [|split].
  - intros Hnone. unfold getCurrentPlan, getData. by rewrite Hnone.
  - intros p. unfold getCurrentPlan, getPreviousPlans, getData.
    destruct (currentPlan store) as [id|]; [|done].
    destruct (id =? 0)%Z; [done|].
    destruct (list_find _ _) as [[i q]|] eqn:Hfind; [|done].
    intros [= ->]. apply list_find_Some in Hfind as (Hlook & Hid & _).
    split; [by eapply list_elem_of_lookup_2|]. split; [by rewrite Hid|].
    rewrite list_elem_of_filter. intros [Hne _]. apply Hne. by rewrite Hid.
  - intros now createdAt weekStart weekEnd goals Hnz Hfresh.
    unfold getCurrentPlan, addWeeklyPlan, saveData, JSON.data, getData.
    cbn [currentPlan weeklyPlans p_id].
    destruct (now =? 0)%Z eqn:Hz; [apply Z.eqb_eq in Hz; done|].
    rewrite fmap_app, list_find_app_r.
    + cbn [fmap list_fmap list_find]. cbn.
      rewrite decide_True by done. reflexivity.
    + apply list_find_None, Forall_fmap, Forall_forall.
      intros q Hq Hid. apply Hfresh. apply list_elem_of_fmap.
      exists q. split; [by rewrite <- Hid|done].
Qed.

Lemma current_plan_is_the_new_plan_witness :
  (2%Z ≠ 0%Z) ∧
  (2%Z ∉ p_id <$> weeklyPlans (planStore 1 ["energy_saving"])) ∧
  getCurrentPlan
    (addWeeklyPlan 2 "2026-11-09T10:00:00.000Z" "2026-11-09" "2026-11-15"
       (goalsOf ["food_vegetarian"]) (planStore 1 ["energy_saving"]))
  = Some {| p_id := 2; p_createdAt := "2026-11-09T10:00:00.000Z";
            p_weekStart := "2026-11-09"; p_weekEnd := "2026-11-15";
            p_goals :=
              (λ goal, {| g_value := g_value goal; g_completed := false |})
                <$> goalsOf ["food_vegetarian"];
            p_progress := Num 0; p_completed := false |}.
Proof.
  assert (Hfresh : 2%Z ∉ p_id <$> weeklyPlans (planStore 1 ["energy_saving"])).
  { vm_compute. intros Hin. apply list_elem_of_singleton in Hin.
    discriminate Hin. }
  split; [discriminate|]. split; [exact Hfresh|].
  destruct (current_plan_is_the_new_plan (planStore 1 ["energy_saving"]))
    as (_ & _ & Hnew).
  apply Hnew; [discriminate|exact Hfresh].
Defined.

(** X9: a toggle touches one goal of one plan. On a reachable store,
    [updatePlanProgress] leaves the habits, the ledger, the scenarios and
    the current plan id as they are, keeps the ids and the order of the
    plans, leaves every plan with another id untouched, and in every
    plan keeps the goals' values and every goal at another index. *)
Theorem toggle_touches_one_goal (planId goalIndex : Z) (completed : bool)
    (store : Data) :
  reachable store →
  let after := updatePlanProgress planId goalIndex completed store in
  habits after = habits store ∧ emissions after = emissions store ∧
  scenarios after = scenarios store ∧
  currentPlan after = currentPlan store ∧
  p_id <$> weeklyPlans after = p_id <$> weeklyPlans store ∧
  (∀ i p, weeklyPlans store !! i = Some p → p_id p ≠ planId →
          weeklyPlans after !! i = Some p) ∧
  (∀ i p, weeklyPlans after !! i = Some p →
          ∃ p0, weeklyPlans store !! i = Some p0 ∧
                g_value <$> p_goals p = g_value <$> p_goals p0 ∧
                ∀ j g, Z.of_nat j ≠ goalIndex →
                       p_goals p0 !! j = Some g → p_goals p !! j = Some g).
Proof.
  intros Hr after. unfold after.
  destruct (updatePlanProgress_cases planId goalIndex completed store)
    as [->|(planIndex & plan & goal & Hplan & Hid & Hle & Hgoal & ->)].
  { repeat split; try done. intros i p Hp. exists p. by repeat split. }
  pose proof (StoreFacts.reachable_saved _ Hr) as Hsaved.
  assert (Hplans :
            weeklyPlans
              (saveData
                 {| habits := habits store; emissions := emissions store;
                    scenarios := scenarios store;
                    weeklyPlans :=
                      <[planIndex := toggled goalIndex completed plan goal]>
                        (weeklyPlans store);
                    currentPlan := currentPlan store |})
            = <[planIndex := JSON.plan (toggled goalIndex completed plan goal)]>
                (weeklyPlans store)).
  { cbn. rewrite list_fmap_insert.
    by rewrite (StoreFacts.reachable_weeklyPlans _ Hr). }
  rewrite Hplans.
  split; [exact (f_equal habits Hsaved)|].
  split; [exact (f_equal emissions Hsaved)|].
  split; [exact (f_equal scenarios Hsaved)|].
  split; [reflexivity|].
  split; [|split].
  - rewrite list_fmap_insert. apply list_insert_id.
    rewrite list_lookup_fmap, Hplan. reflexivity.
  - intros i p Hp Hne. rewrite list_lookup_insert_ne; [done|].
    intros <-. rewrite Hplan in Hp. injection Hp as <-. done.
  - intros i p Hp. apply list_lookup_insert_Some in Hp
      as [(<- & <- & _)|[Hne Hp]].
    + exists plan. split; [done|]. cbn [JSON.plan toggled p_goals]. split.
      * rewrite list_fmap_insert. cbn [g_value]. apply list_insert_id.
        rewrite list_lookup_fmap, Hgoal. reflexivity.
      * intros j g Hj Hg. rewrite list_lookup_insert_ne; [done|]. lia.
    + exists p. by repeat split.
Qed.

Lemma toggle_touches_one_goal_witness :
  reachable (planStore 1 ["energy_saving"; "food_vegetarian"]) ∧
  g_completed <$>
    mjoin (p_goals <$>
             weeklyPlans
               (updatePlanProgress 1 1 true
                  (planStore 1 ["energy_saving"; "food_vegetarian"])))
  = [false; true] ∧
  p_id <$> weeklyPlans
             (updatePlanProgress 1 1 true
                (planStore 1 ["energy_saving"; "food_vegetarian"]))
  = p_id <$> weeklyPlans (planStore 1 ["energy_saving"; "food_vegetarian"]).
Proof.
  assert (Hr : reachable (planStore 1 ["energy_saving"; "food_vegetarian"]))
    by (apply reach_addWeeklyPlan, reach_init).
  split; [exact Hr|]. split; [vm_compute; reflexivity|].
  destruct (toggle_touches_one_goal 1 1 true _ Hr) as (_ & _ & _ & _ & H & _).
  exact H.
Defined.

(** X10: in every reachable store, a plan that has goals and has them
    all ticked is marked completed. (The converse does not hold: the mark
    is never cleared.) *)
Theorem all_goals_ticked_means_completed (store : Data) :
  reachable store →
  ∀ plan, plan ∈ weeklyPlans store → p_goals plan ≠ [] →
          Forall (λ g, g_completed g = true) (p_goals plan) →
          p_completed plan = true.
Proof.
  intros Hr plan Hin. pose proof (reachable_marked _ Hr) as Hall.
  rewrite Forall_forall in Hall. exact (Hall _ Hin).
Qed.

Lemma all_goals_ticked_means_completed_witness :
  let plan :=
    {| p_id := 1; p_createdAt := "2026-11-02T10:00:00.000Z";
       p_weekStart := "2026-11-02"; p_weekEnd := "2026-11-08";
       p_goals := [{| g_value := "energy_saving"; g_completed := true |}];
       p_progress := Num 100; p_completed := true |} in
  reachable (updatePlanProgress 1 0 true (planStore 1 ["energy_saving"])) ∧
  plan ∈ weeklyPlans
           (updatePlanProgress 1 0 true (planStore 1 ["energy_saving"])) ∧
  p_goals plan ≠ [] ∧
  Forall (λ g, g_completed g = true) (p_goals plan) ∧
  p_completed plan = true.
Proof.
  intros plan.
  assert (Hr : reachable
                 (updatePlanProgress 1 0 true (planStore 1 ["energy_saving"])))
    by (apply reach_updatePlanProgress, reach_addWeeklyPlan, reach_init).
  assert (Hin : plan ∈ weeklyPlans
                  (updatePlanProgress 1 0 true
                     (planStore 1 ["energy_saving"])))
    by (vm_compute; apply list_elem_of_here).
  assert (Hne : p_goals plan ≠ []) by discriminate.
  assert (Hall : Forall (λ g, g_completed g = true) (p_goals plan))
    by (repeat constructor).
  split; [exact Hr|]. split; [exact Hin|]. split; [exact Hne|].
  split; [exact Hall|].
  exact (all_goals_ticked_means_completed _ Hr plan Hin Hne Hall).
Defined.

(** X11: the previous plans the page lists. [loadPreviousPlans] shows at
    most five plans, all of them previous plans, newest first; no plan
    it leaves out is newer than a plan it shows; and up to five previous
    plans are all shown. *)
Theorem shown_plans_are_the_newest_five (store : Data) :
  let shown := shownPreviousPlans store in
  (length shown ≤ 5)%nat ∧
  (∀ p, p ∈ shown → p ∈ getPreviousPlans store) ∧
  StronglySorted (λ a b, (p_id b ≤ p_id a)%Z) shown ∧
  (∃ rest, (shown ++ rest)%list ≡ₚ getPreviousPlans store ∧
           ∀ p q, p ∈ shown → q ∈ rest → (p_id q ≤ p_id p)%Z) ∧
  ((length (getPreviousPlans store) ≤ 5)%nat →
   shown ≡ₚ getPreviousPlans store).
Proof.
  intros shown. unfold shown, shownPreviousPlans.
  pose proof (PlanFacts.sortNewestFirst_sorted (getPreviousPlans store))
    as Hsorted.
  pose proof (PlanFacts.sortNewestFirst_perm (getPreviousPlans store))
    as Hperm.
  rewrite <- (take_drop 5 (sortNewestFirst _)) in Hsorted.
  split; [rewrite length_take; lia|]. split; [|split; [|split]].
  - intros p Hp. rewrite <- Hperm.
    eapply elem_of_sublist; [exact Hp|apply sublist_take].
  - by apply StronglySorted_app_1_l in Hsorted.
  - exists (drop 5 (sortNewestFirst (getPreviousPlans store))).
    split; [by rewrite take_drop|]. intros p q Hp Hq.
    by apply (StronglySorted_app_1_elem_of _ _ _ _ _ Hsorted).
  - intros Hlen. rewrite take_ge; [done|]. by rewrite Hperm.
Qed.

End PlanMore.

(** ** More binary64 arithmetic: signs, division, integers *)

Module Binary64More.

Local Open Scope Z_scope.

(** Rounding a non-negative mantissa keeps the sign and never gives
    [NaN]. *)
Lemma binary_round_aux_signed s M e l :
  0 ≤ M →
  match binary_round_aux prec emax s M e l with
  | S754_nan => False
  | S754_zero s' | S754_infinity s' | S754_finite s' _ _ => s' = s
  end.
Proof.
  intros HM. unfold binary_round_aux.
  destruct (Binary64.shr_fexp_spec M e l HM) as [He1 HM1].
  destruct (shr_fexp prec emax M e l) as [mrs1 e1]; simpl in He1, HM1.
  pose proof (Binary64.round_nearest_even_bounds (shr_m mrs1)
                (loc_of_shr_record mrs1)) as HM2.
  set (M2 := round_nearest_even (shr_m mrs1) (loc_of_shr_record mrs1)) in *.
  assert (0 ≤ shr_m mrs1).
  { rewrite HM1. apply Z.div_pos; [lia|]. apply Z.pow_pos_nonneg; lia. }
  assert (HM2' : 0 ≤ M2) by lia.
  destruct (Binary64.shr_fexp_spec M2 e1 loc_Exact HM2') as [He2 HM3].
  destruct (shr_fexp prec emax M2 e1 loc_Exact) as [mrs2 e2];
    simpl in He2, HM3.
  assert (0 ≤ shr_m mrs2).
  { rewrite HM3. apply Z.div_pos; [lia|]. apply Z.pow_pos_nonneg; lia. }
  destruct (shr_m mrs2) as [|p|p]; [reflexivity| |lia].
  by destruct (e2 <=? emax - prec).
Qed.

Local Open Scope float_scope.

Lemma notNegative_spec x :
  notNegative x ↔
  match Prim2SF x with
  | S754_infinity true | S754_finite true _ _ => False
  | _ => True
  end.
Proof.
  unfold notNegative. rewrite FloatAxioms.ltb_spec.
  change (Prim2SF 0) with (S754_zero false).
  destruct (Prim2SF x) as [[]|[]| |[] m e]; cbn; naive_solver.
Qed.

Lemma mul_notNegative x y :
  notNegative x → notNegative y → notNegative (x * y).
Proof.
  rewrite !notNegative_spec, FloatAxioms.mul_spec.
  destruct (Prim2SF x) as [[]|[]| |[] mx ex];
    destruct (Prim2SF y) as [[]|[]| |[] my ey]; try done.
  intros _ _. unfold SF64mul, SFmul. cbn [xorb].
  assert (Hs := binary_round_aux_signed false (Z.pos (mx * my)) (ex + ey)
                  loc_Exact ltac:(lia)).
  by destruct (binary_round_aux _ _ _ _ _ _) as [[]|[]| |[] m e].
Qed.

Lemma add_notNegative x y :
  notNegative x → notNegative y → notNegative (x + y).
Proof.
  rewrite !notNegative_spec, FloatAxioms.add_spec.
  destruct (Prim2SF x) as [[]|[]| |[] mx ex];
    destruct (Prim2SF y) as [[]|[]| |[] my ey]; try done.
  intros _ _. unfold SF64add, SFadd. cbn [cond_Zopp].
  generalize (shl_align mx ex (ex `min` ey)).1 as a.
  generalize (shl_align my ey (ex `min` ey)).1 as b. intros b a.
  unfold binary_normalize, binary_round.
  change (Z.pos a + Z.pos b)%Z with (Z.pos (a + b)). cbv iota.
  destruct (shl_align _ _ _) as [mz ez].
  assert (Hs := binary_round_aux_signed false (Z.pos mz) ez loc_Exact
                  ltac:(lia)).
  by destruct (binary_round_aux _ _ _ _ _ _) as [[]|[]| |[] m e].
Qed.


Local Open Scope Z_scope.

Lemma Zdigits2_ge (M : Z) : 0 < M → 2 ^ (Zdigits2 M - 1) ≤ M.
Proof.
  intros HM. destruct M as [|p|p]; try lia. simpl.
  rewrite Binary64.digits2_pos_size.
  pose proof (Pos.size_le p) as Hle.
  apply Pos2Z.pos_le_pos in Hle. rewrite Pos2Z.inj_pow in Hle.
  change (Z.pos p~0) with (2 * Z.pos p) in Hle.
  replace (Z.pos (Pos.size p)) with (Z.pos (Pos.size p) - 1 + 1) in Hle
    by lia.
  rewrite Z.pow_add_r in Hle by lia. lia.
Qed.

(** Above the smallest exponent, shifting to the format keeps a
    positive mantissa positive. *)
Lemma shr_fexp_pos M e l :
  0 < M → -1074 ≤ e →
  0 < shr_m (fst (shr_fexp prec emax M e l)) ∧
  -1074 ≤ snd (shr_fexp prec emax M e l).
Proof.
  intros HM He.
  destruct (Binary64.shr_fexp_spec M e l) as [He1 HM1]; [lia|].
  rewrite Binary64.fexp_64 in He1. split; [|lia].
  rewrite HM1, He1. pose proof (Zdigits2_ge M HM) as Hd.
  assert (Hdp : 0 < Zdigits2 M) by (destruct M; simpl; lia).
  apply Z.div_str_pos. split; [apply Z.pow_pos_nonneg; lia|].
  destruct (Z_le_gt_dec (Zdigits2 M) 53).
  - replace (Z.max e (Z.max (Zdigits2 M + e - 53) (-1074)) - e) with 0
      by lia. simpl. lia.
  - replace (Z.max e (Z.max (Zdigits2 M + e - 53) (-1074)) - e)
      with (Zdigits2 M - 53) by lia.
    etransitivity; [|exact Hd]. apply Z.pow_le_mono_r; lia.
Qed.

(** Rounding a positive mantissa above the smallest exponent gives
    neither a zero nor [NaN]. *)
Lemma binary_round_aux_pos s M e l :
  0 < M → -1074 ≤ e →
  match binary_round_aux prec emax s M e l with
  | S754_infinity s' | S754_finite s' _ _ => s' = s
  | _ => False
  end.
Proof.
  intros HM He. unfold binary_round_aux.
  destruct (shr_fexp_pos M e l HM He) as [HM1 He1].
  destruct (shr_fexp prec emax M e l) as [mrs1 e1]; simpl in He1, HM1.
  pose proof (Binary64.round_nearest_even_bounds (shr_m mrs1)
                (loc_of_shr_record mrs1)) as HM2.
  set (M2 := round_nearest_even (shr_m mrs1) (loc_of_shr_record mrs1)) in *.
  destruct (shr_fexp_pos M2 e1 loc_Exact ltac:(lia) He1) as [HM3 He2].
  destruct (shr_fexp prec emax M2 e1 loc_Exact) as [mrs2 e2];
    simpl in He2, HM3.
  destruct (shr_m mrs2) as [|p|p]; [lia| |lia].
  by destruct (e2 <=? emax - prec).
Qed.

Lemma iter_xO p k : Z.pos (Pos.iter xO p k) = Z.pos p * 2 ^ Z.pos k.
Proof.
  induction k as [|k IH] using Pos.peano_ind.
  - simpl. lia.
  - rewrite Pos.iter_succ, Pos2Z.inj_xO, IH, Pos2Z.inj_succ.
    rewrite Z.pow_succ_r by lia. lia.
Qed.

(** A positive integer below [2^63] is a finite, positive number. *)
Lemma binary_round_integer p :
  Z.pos p < 2 ^ 63 →
  ∃ m e, binary_round prec emax false p 0 = S754_finite false m e.
Proof.
  intros Hp. unfold binary_round.
  assert (Hf : -1074 ≤ fexp prec emax (Z.pos (digits2_pos p) + 0))
    by (rewrite Binary64.fexp_64; lia).
  set (f := fexp prec emax (Z.pos (digits2_pos p) + 0)) in *.
  assert (Hbig : 2 ^ 63 ≤ (2 ^ 53 - 2) * 2 ^ 971) by (vm_compute; discriminate).
  assert (Hcase : ∃ mz ez, shl_align p 0 f = (mz, ez) ∧ -1074 ≤ ez ≤ 971 ∧
                           Z.pos mz ≤ (2 ^ 53 - 2) * 2 ^ (971 - ez)).
  { unfold shl_align. destruct (f - 0) as [|d|d] eqn:Hd.
    - exists p, 0. split; [done|]. split; [lia|]. simpl (971 - 0). lia.
    - exists p, 0. split; [done|]. split; [lia|]. simpl (971 - 0). lia.
    - exists (Pos.iter xO p d), f. split; [done|].
      assert (f ≤ 0) by lia. split; [lia|].
      rewrite iter_xO. replace (971 - f) with (971 + Z.pos d) by lia.
      rewrite Z.pow_add_r by lia.
      assert (0 < 2 ^ Z.pos d) by (apply Z.pow_pos_nonneg; lia). nia. }
  destruct Hcase as (mz & ez & -> & Hez & Hmz).
  pose proof (binary_round_aux_pos false (Z.pos mz) ez loc_Exact
                ltac:(lia) ltac:(lia)) as Hpos.
  pose proof (Binary64.binary_round_aux_finite false (Z.pos mz) ez loc_Exact
                ltac:(lia) ltac:(lia) Hmz) as Hfin.
  destruct (binary_round_aux _ _ _ _ _ _) as [s'|s'| |s' m e]; try done.
  subst s'. by eexists _, _.
Qed.

Local Open Scope float_scope.

Lemma of_length_finite (n : nat) :
  (0 < n)%nat → (Z.of_nat n < 2 ^ 32)%Z →
  ∃ m e, Prim2SF (of_length n) = S754_finite false m e.
Proof.
  intros Hn Hlt. unfold of_length, of_Z.
  destruct (Z.of_nat n) as [|p|p] eqn:Hp; [lia| |lia].
  rewrite FloatAxioms.of_uint63_spec, Uint63.of_Z_spec.
  rewrite Z.mod_small
    by (split; [lia|]; eapply Z.lt_trans; [exact Hlt|]; reflexivity).
  apply binary_round_integer. eapply Z.lt_trans; [exact Hlt|]. reflexivity.
Qed.

(** A finite number that is not a zero, divided by itself, is 1. *)
Lemma div_self x s m e : Prim2SF x = S754_finite s m e → x / x = 1.
Proof.
  intros Hx. apply Prim2SF_inj. rewrite FloatAxioms.div_spec, Hx.
  unfold SF64div, SFdiv, SFdiv_core_binary.
  replace (Zdigits2 (Z.pos m) + e - (Zdigits2 (Z.pos m) + e))%Z with 0%Z
    by lia.
  replace (e - e)%Z with 0%Z by lia.
  change (Z.min (fexp prec emax 0) 0) with (-53)%Z.
  change (0 - -53)%Z with 53%Z. cbv zeta iota.
  change (IntDef.Z.div_eucl (Z.pos m ≪ 53) (Z.pos m))
    with (Z.div_eucl (Z.pos m ≪ 53) (Z.pos m)).
  assert (Hsh : (Z.pos m ≪ 53 = 2 ^ 53 * Z.pos m)%Z)
    by (rewrite Z.shiftl_mul_pow2 by lia; lia).
  rewrite Hsh.
  pose proof (Z.div_mul (2 ^ 53) (Z.pos m) ltac:(lia)) as Hq.
  pose proof (Z.mod_mul (2 ^ 53) (Z.pos m) ltac:(lia)) as Hr.
  unfold Z.div, Z.modulo in Hq, Hr.
  destruct (Z.div_eucl (2 ^ 53 * Z.pos m) (Z.pos m)) as [q r].
  subst q r.
  replace (new_location (Z.pos m) 0) with loc_Exact
    by (unfold new_location; by destruct (IntDef.Z.even _)).
  by destruct s.
Qed.

Lemma zero_div x s m e :
  Prim2SF x = S754_finite s m e → 0 / x * 100 = (if s then -0 else 0).
Proof.
  intros Hx. apply Prim2SF_inj.
  rewrite FloatAxioms.mul_spec, FloatAxioms.div_spec, Hx.
  by destruct s.
Qed.

(** Where [NaN] cannot come from. *)
Lemma sub_finite_not_nan x y :
  is_finite x = true → is_finite y = true → is_nan (x - y) = false.
Proof.
  rewrite !Binary64.is_finite_spec, Binary64.is_nan_spec,
    FloatAxioms.sub_spec.
  destruct (Prim2SF x) as [sx|sx| |sx mx ex];
    destruct (Prim2SF y) as [sy|sy| |sy my ey]; try done; intros _ _.
  - by destruct sx, sy.
  - unfold SF64sub, SFsub, binary_normalize.
    destruct (_ - _)%Z as [|p|p]; [done|..]; unfold binary_round;
      destruct (shl_align _ _ _) as [mz ez].
    + assert (Hs := binary_round_aux_signed false (Z.pos mz) ez loc_Exact
                      ltac:(lia)).
      by destruct (binary_round_aux _ _ _ _ _ _).
    + assert (Hs := binary_round_aux_signed true (Z.pos mz) ez loc_Exact
                      ltac:(lia)).
      by destruct (binary_round_aux _ _ _ _ _ _).
Qed.

Lemma div_finite_not_nan x y s m e :
  is_nan x = false → Prim2SF y = S754_finite s m e →
  is_nan (x / y) = false.
Proof.
  rewrite !Binary64.is_nan_spec, FloatAxioms.div_spec. intros Hx ->.
  destruct (Prim2SF x) as [sx|sx| |sx mx ex]; try done.
  unfold SF64div, SFdiv, SFdiv_core_binary. cbv zeta.
  match goal with
  | |- context [IntDef.Z.div_eucl ?a ?b] =>
      change (IntDef.Z.div_eucl a b) with (Z.div_eucl a b);
      assert (Ha : (0 ≤ a)%Z);
      [|pose proof (Z.div_pos a b Ha ltac:(lia)) as Hq;
        unfold Z.div in Hq; destruct (Z.div_eucl a b) as [q r]]
  end.
  { destruct (_ - _ - _)%Z; [lia| |lia]. apply Z.shiftl_nonneg. lia. }
  assert (Hs := binary_round_aux_signed (xorb sx s) q
                  (Z.min (fexp prec emax (Zdigits2 (Z.pos mx) + ex
                                          - (Zdigits2 (Z.pos m) + e)))
                         (ex - e))
                  (new_location (Z.pos m) r) Hq).
  by destruct (binary_round_aux _ _ _ _ _ _).
Qed.

Lemma mul_finite_not_nan x c s m e :
  is_nan x = false → Prim2SF c = S754_finite s m e →
  is_nan (x * c) = false.
Proof.
  rewrite !Binary64.is_nan_spec, FloatAxioms.mul_spec. intros Hx ->.
  destruct (Prim2SF x) as [sx|sx| |sx mx ex]; try done.
  unfold SF64mul, SFmul.
  assert (Hs := binary_round_aux_signed (xorb sx s) (Z.pos (mx * m))
                  (ex + e) loc_Exact ltac:(lia)).
  by destruct (binary_round_aux _ _ _ _ _ _).
Qed.

End Binary64More.

(** ** The engine never makes a negative total of its own *)

Module SignFacts.

Import CarbonStorage.
Local Open Scope float_scope.

Lemma table_notNegative (table : gmap string float) key :
  map_Forall (λ _ x, notNegative x) table →
  notNegative (ToNumber (get table key)).
Proof.
  intros Hall. unfold get.
  destruct (table !! key) as [x|] eqn:Hx; [exact (Hall _ _ Hx)|].
  by case_decide.
Qed.

Ltac tabulate :=
  repeat (apply map_Forall_insert_2; [reflexivity|]); apply map_Forall_empty.

Lemma factor_notNegative category table habit :
  tableOf category = Some table → notNegative (factor table habit).
Proof.
  unfold tableOf, factor.
  repeat case_decide; intros [= <-]; apply table_notNegative; tabulate.
Qed.

Lemma freqFactor_notNegative key :
  notNegative (ToNumber (or_else (get FREQUENCY_FACTORS key) (Num 1))).
Proof.
  assert (Htable : notNegative (ToNumber (get FREQUENCY_FACTORS key)))
    by (apply table_notNegative; tabulate).
  unfold or_else. by destruct (ToBoolean _).
Qed.

Lemma visit_noneNegative acc habit :
  notNegative (ToNumber (h_quantity habit)) →
  notNegative (ToNumber (h_distance habit)) →
  notNegative (ToNumber (h_consumption habit)) →
  noneNegative acc → noneNegative (fst (visit acc habit)).
Proof.
  intros Hq Hd Hc Hacc. unfold noneNegative, Object_values in *.
  apply Forall_cons in Hacc as [Ht Hacc].
  apply Forall_cons in Hacc as [He Hacc].
  apply Forall_cons in Hacc as [Hf Hacc].
  apply Forall_cons in Hacc as [Hs Hacc].
  apply Forall_cons in Hacc as [Hw _].
  assert (H4 : notNegative 4) by reflexivity.
  unfold visit.
  repeat case_decide; cbn [fst];
    repeat (apply Forall_cons; split); try apply Forall_nil; try done;
    (apply Binary64More.add_notNegative; [done|]);
    repeat apply Binary64More.mul_notNegative;
    first [ done | apply freqFactor_notNegative
          | by apply (factor_notNegative "transport")
          | by apply (factor_notNegative "energy")
          | by apply (factor_notNegative "food")
          | by apply (factor_notNegative "shopping")
          | by apply (factor_notNegative "waste") ].
Qed.

Lemma forEach_noneNegative hs : ∀ acc,
  nothingNegative hs → noneNegative acc →
  noneNegative (fst (forEach acc hs)).
Proof.
  induction hs as [|h hs IH]; intros acc Hall Hacc; [done|].
  apply Forall_cons in Hall as [(Hq & Hd & Hc) Hall].
  rewrite EngineFacts.forEach_cons. cbn [fst].
  apply IH; [done|]. by apply visit_noneNegative.
Qed.

Lemma sum_notNegative values : ∀ start,
  notNegative start → Forall notNegative values →
  notNegative (fold_left (λ a b, a + b) values start).
Proof.
  induction values as [|v values IH]; intros start Hs Hall; [done|].
  apply Forall_cons in Hall as [Hv Hall]. cbn.
  apply IH; [|done]. by apply Binary64More.add_notNegative.
Qed.

Lemma roundtrip_notNegative x :
  notNegative x → notNegative (ToNumber (JSON.roundtrip (Num x))).
Proof.
  intros Hx. cbn. unfold JSON.number.
  destruct (is_finite x); [|done]. by destruct (PrimFloat.is_zero x).
Qed.

(** X12: totals are never negative unless a negative number was
    entered. If no stored habit has a quantity, distance or consumption
    below zero, then the total that the recompute returns, the total and
    the five category values of the aggregate it builds, and the same
    numbers as they are read back from the ledger, are all not below
    zero (they can be [NaN], for a type without a factor). *)
Theorem totals_are_never_negative (currentMonth : string) (store : Data) :
  nothingNegative (habits store) →
  let computed := newAggregate currentMonth (habits store) in
  let stored :=
    getCurrentEmissions currentMonth
      (fst (calculateEmissions currentMonth store)) in
  notNegative (snd (calculateEmissions currentMonth store)) ∧
  (∀ a, a = computed ∨ a = stored →
        notNegative (ToNumber (total a)) ∧
        notNegative (ToNumber (s_transport (byCategory a))) ∧
        notNegative (ToNumber (s_energy (byCategory a))) ∧
        notNegative (ToNumber (s_food (byCategory a))) ∧
        notNegative (ToNumber (s_shopping (byCategory a))) ∧
        notNegative (ToNumber (s_waste (byCategory a)))).
Proof.
  intros Hall computed stored.
  assert (Hacc : noneNegative (fst (forEach zeroByCategory (habits store)))).
  { apply forEach_noneNegative; [done|]. by repeat constructor. }
  assert (Hsum : notNegative
            (sum (Object_values (fst (forEach zeroByCategory (habits store)))))).
  { by apply sum_notNegative. }
  unfold noneNegative, Object_values in Hacc.
  apply Forall_cons in Hacc as [Ht Hacc].
  apply Forall_cons in Hacc as [He Hacc].
  apply Forall_cons in Hacc as [Hf Hacc].
  apply Forall_cons in Hacc as [Hs Hacc].
  apply Forall_cons in Hacc as [Hw _].
  split.
  { by rewrite EngineFacts.calculateEmissions_unfold. }
  intros a [->| ->].
  - by repeat split.
  - unfold stored.
    rewrite LedgerFacts.getCurrentEmissions_calculateEmissions.
    repeat split; by apply roundtrip_notNegative.
Qed.

Lemma totals_are_never_negative_witness :
  nothingNegative (habits (storeOf [carHabit; beefHabit])) ∧
  snd (calculateEmissions "2026-11" (storeOf [carHabit; beefHabit])) = 180 ∧
  notNegative
    (snd (calculateEmissions "2026-11" (storeOf [carHabit; beefHabit]))).
Proof.
  assert (Hall : nothingNegative (habits (storeOf [carHabit; beefHabit])))
    by (repeat constructor).
  split; [exact Hall|]. split; [vm_compute; reflexivity|].
  exact (proj1 (totals_are_never_negative "2026-11" _ Hall)).
Defined.

End SignFacts.

(** ** The dashboard *)

Module DashboardFacts.

Import CarbonStorage.
Local Open Scope float_scope.

Lemma finite_positive y :
  is_finite y = true → (0 <? y) = true →
  ∃ m e, Prim2SF y = S754_finite false m e.
Proof.
  rewrite Binary64.is_finite_spec, FloatAxioms.ltb_spec.
  change (Prim2SF 0) with (S754_zero false).
  destruct (Prim2SF y) as [s|s| |[] m e]; try done. by eexists _, _.
Qed.

Lemma finite_not_nan x : is_finite x = true → is_nan x = false.
Proof.
  rewrite Binary64.is_finite_spec, Binary64.is_nan_spec.
  by destruct (Prim2SF x).
Qed.

Lemma comparison_cases cur history :
  storable (total cur) → Forall storableAggregate history →
  match comparison cur history with
  | Plain x => x = 0
  | Fixed1 x =>
      is_nan x = false ∧
      ∃ previousMonth,
        history !! (length history - 2)%nat = Some previousMonth ∧
        (0 <? ToNumber (total previousMonth)) = true
  end.
Proof.
  intros Hcur Hall. unfold comparison.
  case_decide; [|done].
  destruct (history !! _) as [prev|] eqn:Hprev; [|done].
  destruct (0 <? ToNumber (total prev)) eqn:Hpos; [|done].
  split; [|by exists prev].
  destruct (Binary64.baseline_value _ Hcur) as (Ht & _ & _).
  pose proof (Forall_lookup_1 _ _ _ _ Hall Hprev) as (Hp & _).
  assert (Hy : is_finite (ToNumber (total prev)) = true).
  { destruct (total prev) as [| |y|]; try done. }
  destruct (finite_positive _ Hy Hpos) as (m & e & Hsf).
  eapply Binary64More.mul_finite_not_nan; [|reflexivity].
  eapply Binary64More.div_finite_not_nan; [|exact Hsf].
  by apply Binary64More.sub_finite_not_nan.
Qed.

(** X13: the comparison with the previous month on the dashboard. On a
    reachable store it is the number 0 or the [toFixed(1)] text of a
    number that is not [NaN]: the test [previousMonth.total > 0] keeps
    the division away from 0 and [null]. A text is shown only when the
    history has an entry before its last one whose total is above zero,
    and a history of fewer than two entries always shows 0. *)
Theorem comparison_is_never_nan (currentMonth : string) (store : Data) :
  reachable store →
  let shown :=
    comparison (getCurrentEmissions currentMonth store)
               (getMonthlyHistory store) in
  match shown with
  | Plain x => x = 0
  | Fixed1 x =>
      is_nan x = false ∧
      ∃ previousMonth,
        getMonthlyHistory store !! (length (getMonthlyHistory store) - 2)%nat
        = Some previousMonth ∧
        (0 <? ToNumber (total previousMonth)) = true
  end ∧
  ((length (getMonthlyHistory store) < 2)%nat → shown = Plain 0).
Proof.
  intros Hr shown. split.
  - apply comparison_cases.
    + by destruct (LedgerFacts.reachable_baseline_storable currentMonth _ Hr).
    + by destruct (LedgerFacts.reachable_ledger _ Hr).
  - intros Hlen. unfold shown, comparison. case_decide; [lia|done].
Qed.

Lemma comparison_is_never_nan_witness :
  reachable (addHabit 2 "2026-12" beefHabit
               (addHabit 1 "2026-11" carHabit initialData)) ∧
  comparison
    (getCurrentEmissions "2026-12"
       (addHabit 2 "2026-12" beefHabit
          (addHabit 1 "2026-11" carHabit initialData)))
    (getMonthlyHistory
       (addHabit 2 "2026-12" beefHabit
          (addHabit 1 "2026-11" carHabit initialData)))
  = Fixed1 150 ∧
  match
    comparison
      (getCurrentEmissions "2026-12"
         (addHabit 2 "2026-12" beefHabit
            (addHabit 1 "2026-11" carHabit initialData)))
      (getMonthlyHistory
         (addHabit 2 "2026-12" beefHabit
            (addHabit 1 "2026-11" carHabit initialData)))
  with
  | Plain x => x = 0
  | Fixed1 x =>
      is_nan x = false ∧
      ∃ previousMonth,
        getMonthlyHistory
          (addHabit 2 "2026-12" beefHabit
             (addHabit 1 "2026-11" carHabit initialData))
        !! (length (getMonthlyHistory
                      (addHabit 2 "2026-12" beefHabit
                         (addHabit 1 "2026-11" carHabit initialData)))
            - 2)%nat
        = Some previousMonth ∧
        (0 <? ToNumber (total previousMonth)) = true
  end.
Proof.
  assert (Hr : reachable (addHabit 2 "2026-12" beefHabit
                            (addHabit 1 "2026-11" carHabit initialData)))
    by (apply reach_addHabit, reach_addHabit, reach_init).
  split; [exact Hr|]. split; [vm_compute; reflexivity|].
  exact (proj1 (comparison_is_never_nan "2026-12" _ Hr)).
Defined.

Lemma div_not_nan x y :
  is_finite x = true → is_nan y = false → PrimFloat.is_zero y = false →
  is_nan (x / y) = false.
Proof.
  intros Hx Hn Hz. rewrite Binary64.is_nan_spec in Hn.
  rewrite Binary64.is_zero_spec in Hz.
  destruct (Prim2SF y) as [s|s| |s m e] eqn:Hy; try done.
  - rewrite Binary64.is_finite_spec in Hx.
    rewrite Binary64.is_nan_spec, FloatAxioms.div_spec, Hy.
    by destruct (Prim2SF x).
  - eapply Binary64More.div_finite_not_nan; [|exact Hy].
    by apply finite_not_nan.
Qed.

Lemma denominator_ok total :
  is_nan (ToNumber (or_else (Num total) (Num 1))) = false ∧
  PrimFloat.is_zero (ToNumber (or_else (Num total) (Num 1))) = false.
Proof.
  unfold or_else, ToBoolean.
  destruct (PrimFloat.is_zero total || is_nan total) eqn:Hb;
    cbn [negb ToNumber]; [by vm_compute|].
  by apply orb_false_elim in Hb as [Hz Hn].
Qed.

Lemma percent_not_nan x total :
  is_finite x = true →
  is_nan (x / ToNumber (or_else (Num total) (Num 1)) * 100) = false.
Proof.
  intros Hx. destruct (denominator_ok total) as [Hn Hz].
  eapply Binary64More.mul_finite_not_nan; [|reflexivity].
  by apply div_not_nan.
Qed.

Lemma present_number x : present (JSON.number x) = true.
Proof.
  unfold JSON.number. destruct (is_finite x); [|done].
  by destruct (PrimFloat.is_zero x).
Qed.

Lemma Object_entries_stored c :
  Object_entries (JSON.stored (asStored c))
  = zip categories (JSON.number <$> Object_values c).
Proof.
  unfold Object_entries.
  cbn [JSON.stored asStored s_transport s_energy s_food s_shopping s_waste].
  by rewrite !filter_cons_True, filter_nil by apply present_number.
Qed.

Lemma number_finite x :
  is_finite x = true → ∃ y, JSON.number x = Num y ∧ is_finite y = true.
Proof.
  intros Hx. unfold JSON.number. rewrite Hx.
  destruct (PrimFloat.is_zero x); by eexists.
Qed.

Lemma number_not_finite x : is_finite x = false → JSON.number x = Null.
Proof. intros Hx. unfold JSON.number. by rewrite Hx. Qed.

Lemma detailRows_numbers total names values :
  length names = length values →
  Forall (λ x, is_finite x = true) values →
  snd (detailRows total (zip names (JSON.number <$> values))) = Returned () ∧
  dr_category <$> fst (detailRows total (zip names (JSON.number <$> values)))
  = names ∧
  Forall (λ row, is_finite (dr_value row) = true ∧
                 is_nan (dr_percent row) = false)
         (fst (detailRows total (zip names (JSON.number <$> values)))).
Proof.
  revert values. induction names as [|n names IH]; intros [|x values] Hlen Hall;
    try done.
  apply Forall_cons in Hall as [Hx Hall]. rewrite fmap_cons. cbn [zip zip_with].
  destruct (number_finite x Hx) as (y & -> & Hy). cbn [detailRows].
  destruct (IH values) as (Hr & Hn & Hrows); [by injection Hlen|done|].
  destruct (detailRows total (zip names (JSON.number <$> values)))
    as [rows result].
  cbn in *. split; [done|]. split; [by rewrite Hn|].
  constructor; [|done]. split; [done|]. by apply percent_not_nan.
Qed.

Lemma detailRows_null total names values :
  length names = length values →
  Exists (λ x, is_finite x = false) values →
  snd (detailRows total (zip names (JSON.number <$> values))) = TypeError.
Proof.
  revert values. induction names as [|n names IH]; intros [|x values] Hlen Hex;
    try done; [by apply Exists_nil in Hex|].
  rewrite fmap_cons. cbn [zip zip_with].
  destruct (is_finite x) eqn:Hx.
  - destruct (number_finite x Hx) as (y & -> & Hy). cbn [detailRows].
    apply Exists_cons in Hex as [Hex|Hex]; [congruence|].
    specialize (IH values ltac:(by injection Hlen) Hex).
    by destruct (detailRows total (zip names (JSON.number <$> values))).
  - by rewrite (number_not_finite x Hx).
Qed.

(** X14: the category details of the dashboard after a recompute. If
    the five category totals the recompute computed are finite, the
    details list five rows, one per category in the order of
    [emissionsByCategory], each with a finite value and a percentage
    that is not [NaN] (the [|| 1] keeps the division away from 0). If one
    of the totals is [NaN] or infinite, it was stored as [null], and
    [updateCategoryDetails] throws a [TypeError] at its row. *)
Theorem category_details_need_finite_totals (currentMonth : string)
    (store : Data) :
  let computed := fst (forEach zeroByCategory (habits store)) in
  let shown :=
    updateCategoryDetails
      (byCategory
         (getCurrentEmissions currentMonth
            (fst (calculateEmissions currentMonth store)))) in
  (Forall (λ x, is_finite x = true) (Object_values computed) →
   snd shown = Returned () ∧
   dr_category <$> fst shown = categories ∧
   Forall (λ row, is_finite (dr_value row) = true ∧
                  is_nan (dr_percent row) = false) (fst shown)) ∧
  (Exists (λ x, is_finite x = false) (Object_values computed) →
   snd shown = TypeError).
Proof.
  intros computed shown. unfold shown, updateCategoryDetails.
  rewrite LedgerFacts.getCurrentEmissions_calculateEmissions.
  change (byCategory (JSON.aggregate (newAggregate currentMonth (habits store))))
    with (JSON.stored (asStored computed)).
  rewrite Object_entries_stored.
  split; [by apply detailRows_numbers|by apply detailRows_null].
Qed.

Lemma category_details_need_finite_totals_witness :
  Exists (λ x, is_finite x = false)
         (Object_values
            (fst (forEach zeroByCategory
                    (habits (storeOf [beefHabit; tofuHabit]))))) ∧
  updateCategoryDetails
    (byCategory
       (getCurrentEmissions "2026-11"
          (fst (calculateEmissions "2026-11"
                  (storeOf [beefHabit; tofuHabit])))))
  = ([{| dr_category := "transport"; dr_value := 0; dr_percent := 0 |};
      {| dr_category := "energy"; dr_value := 0; dr_percent := 0 |}],
     TypeError) ∧
  Forall (λ x, is_finite x = true)
         (Object_values
            (fst (forEach zeroByCategory
                    (habits (storeOf [carHabit; beefHabit]))))) ∧
  dr_percent <$>
    fst (updateCategoryDetails
           (byCategory
              (getCurrentEmissions "2026-11"
                 (fst (calculateEmissions "2026-11"
                         (storeOf [carHabit; beefHabit]))))))
  = [40; 0; 60; 0; 0] ∧
  snd (updateCategoryDetails
         (byCategory
            (getCurrentEmissions "2026-11"
               (fst (calculateEmissions "2026-11"
                       (storeOf [beefHabit; tofuHabit]))))))
  = TypeError ∧
  snd (updateCategoryDetails
         (byCategory
            (getCurrentEmissions "2026-11"
               (fst (calculateEmissions "2026-11"
                       (storeOf [carHabit; beefHabit]))))))
  = Returned ().
Proof.
  assert (Hbad : Exists (λ x, is_finite x = false)
            (Object_values
               (fst (forEach zeroByCategory
                       (habits (storeOf [beefHabit; tofuHabit])))))).
  { vm_compute. do 2 apply Exists_cons_tl. by apply Exists_cons_hd. }
  assert (Hgood : Forall (λ x, is_finite x = true)
            (Object_values
               (fst (forEach zeroByCategory
                       (habits (storeOf [carHabit; beefHabit])))))).
  { vm_compute. by repeat constructor. }
  split; [exact Hbad|]. split; [vm_compute; reflexivity|].
  split; [exact Hgood|]. split; [vm_compute; reflexivity|].
  split.
  - exact (proj2 (category_details_need_finite_totals "2026-11"
                    (storeOf [beefHabit; tofuHabit])) Hbad).
  - exact (proj1 (proj1 (category_details_need_finite_totals "2026-11"
                    (storeOf [carHabit; beefHabit])) Hgood)).
Defined.

End DashboardFacts.

(** ** The progress of a plan at both ends *)

Module ProgressFacts.

Import CarbonStorage.
Local Open Scope float_scope.

Lemma none_completed_length (goals : list Goal) :
  Forall (λ g, g_completed g = false) goals →
  length (filter (λ g, g_completed g = true) goals) = 0%nat.
Proof.
  induction 1 as [|g l Hg _ IH]; [done|].
  rewrite filter_cons_False by congruence. exact IH.
Qed.

Lemma full_progress (n : nat) :
  (0 < n)%nat → (Z.of_nat n < 2 ^ 32)%Z →
  JSON.number (Math_round (of_length n / of_length n * 100)) = Num 100.
Proof.
  intros Hn Hlt.
  destruct (Binary64More.of_length_finite n Hn Hlt) as (m & e & Hsf).
  by rewrite (Binary64More.div_self _ _ _ _ Hsf).
Qed.

Lemma no_progress (n : nat) :
  (0 < n)%nat → (Z.of_nat n < 2 ^ 32)%Z →
  JSON.number (Math_round (of_length 0 / of_length n * 100)) = Num 0.
Proof.
  intros Hn Hlt.
  destruct (Binary64More.of_length_finite n Hn Hlt) as (m & e & Hsf).
  change (of_length 0) with 0.
  by rewrite (Binary64More.zero_div _ _ _ _ Hsf).
Qed.

(** X15: the progress at both ends. For an in-range toggle on a plan
    of fewer than [2^32] goals (the bound of a JavaScript array): if
    every goal is ticked afterwards, the progress stored is 100 and the
    plan is marked completed; if no goal is ticked afterwards, the
    progress stored is 0 and the mark is what it was. *)
Theorem progress_at_the_ends (store : Data) (planId goalIndex : Z)
    (completed : bool) (planIndex : nat) (plan : Plan) (goal : Goal) :
  findIndex (λ p, p_id p = planId) (weeklyPlans store) = Some planIndex →
  weeklyPlans store !! planIndex = Some plan →
  at_index (p_goals plan) goalIndex = Some goal →
  (Z.of_nat (length (p_goals plan)) < 2 ^ 32)%Z →
  let goals :=
    <[Z.to_nat goalIndex :=
        {| g_value := g_value goal; g_completed := completed |}]>
      (p_goals plan) in
  let after :=
    weeklyPlans (updatePlanProgress planId goalIndex completed store)
      !! planIndex in
  (Forall (λ g, g_completed g = true) goals →
   p_progress <$> after = Some (Num 100) ∧
   p_completed <$> after = Some true) ∧
  (Forall (λ g, g_completed g = false) goals →
   p_progress <$> after = Some (Num 0) ∧
   p_completed <$> after = Some (p_completed plan)).
Proof.
  intros Hfind Hplan Hgoal Hlen goals after.
  assert (Hn : (0 < length goals)%nat).
  { unfold goals. rewrite length_insert. unfold at_index in Hgoal.
    destruct (0 <=? goalIndex)%Z; [|done].
    apply lookup_lt_Some in Hgoal. lia. }
  assert (Hlt : (Z.of_nat (length goals) < 2 ^ 32)%Z).
  { unfold goals. by rewrite length_insert. }
  unfold after.
  rewrite (PlanFacts.updatePlanProgress_in_range _ _ _ _ _ _ _
             Hfind Hplan Hgoal).
  fold goals. cbn [fmap option_fmap option_map p_progress p_completed].
  split.
  - intros Hall. rewrite (PlanMore.all_completed_length _ Hall).
    rewrite full_progress by done. by rewrite decide_True.
  - intros Hnone. rewrite (none_completed_length _ Hnone).
    rewrite no_progress by done. rewrite decide_False by lia. done.
Qed.

Lemma progress_at_the_ends_witness :
  findIndex (λ p, p_id p = 1%Z)
            (weeklyPlans (planStore 1 ["energy_saving"])) = Some 0%nat ∧
  p_progress <$>
    weeklyPlans (updatePlanProgress 1 0 true (planStore 1 ["energy_saving"]))
      !! 0%nat
  = Some (Num 100) ∧
  p_completed <$>
    weeklyPlans (updatePlanProgress 1 0 true (planStore 1 ["energy_saving"]))
      !! 0%nat
  = Some true.
Proof.
  split; [reflexivity|].
  refine (proj1 (progress_at_the_ends (planStore 1 ["energy_saving"]) 1 0 true
                   0 _ _ eq_refl eq_refl eq_refl _) _).
  - vm_compute. reflexivity.
  - vm_compute. by repeat constructor.
Defined.

End ProgressFacts.

(** ** The week, the display tables and the saved scenarios *)

Module PageFacts.

Import CarbonStorage.


Lemma same_dom {A B} (m1 : gmap string A) (m2 : gmap string B) key :
  dom m1 = dom m2 → is_Some (m1 !! key) ↔ is_Some (m2 !! key).
Proof. intros Hdom. by rewrite <- !elem_of_dom, Hdom. Qed.

Ltac same_keys :=
  apply same_dom; unfold EMISSION_FACTORS, FREQUENCY_FACTORS, texts;
  cbn [ef_transport ef_energy ef_food ef_shopping ef_waste];
  unfold list_to_map; cbn [foldr fst snd];
  by rewrite !dom_insert_L, !dom_empty_L.

(** X17: the display tables agree with the factor tables. A category
    and type have a display name in the habit list exactly when they
    have an emission factor; the table the engine reads for a category
    is the entry of [EMISSION_FACTORS] under that name; and a frequency
    has a text exactly when it has a factor. *)
Theorem names_and_factors_agree :
  (∀ category type,
     is_Some (own names category type) ↔ is_Some (own factors category type)) ∧
  (∀ category table,
     tableOf category = Some table ↔ factors !! category = Some table) ∧
  (∀ frequency,
     is_Some (texts !! frequency) ↔ is_Some (FREQUENCY_FACTORS !! frequency)).
Proof.
  split; [|split].
  - intros category type. unfold own, names, factors.
    unfold list_to_map at 1 7. cbn [foldr fst snd].
    destruct (decide (category = "transport")) as [->|];
      [rewrite !lookup_insert_eq; cbn [mbind option_bind]; same_keys|].
    rewrite !(lookup_insert_ne _ "transport") by done.
    destruct (decide (category = "energy")) as [->|];
      [rewrite !lookup_insert_eq; cbn [mbind option_bind]; same_keys|].
    rewrite !(lookup_insert_ne _ "energy") by done.
    destruct (decide (category = "food")) as [->|];
      [rewrite !lookup_insert_eq; cbn [mbind option_bind]; same_keys|].
    rewrite !(lookup_insert_ne _ "food") by done.
    destruct (decide (category = "shopping")) as [->|];
      [rewrite !lookup_insert_eq; cbn [mbind option_bind]; same_keys|].
    rewrite !(lookup_insert_ne _ "shopping") by done.
    destruct (decide (category = "waste")) as [->|];
      [rewrite !lookup_insert_eq; cbn [mbind option_bind]; same_keys|].
    rewrite !(lookup_insert_ne _ "waste") by done.
    rewrite !lookup_empty. cbn [mbind option_bind]. split; by intros [? ?].
  - intros category table. unfold tableOf, factors.
    unfold list_to_map at 1. cbn [foldr fst snd].
    repeat case_decide; subst;
      rewrite ?lookup_insert_eq, ?lookup_insert_ne, ?lookup_empty by done;
      done.
  - intros frequency. same_keys.
Qed.

(** X18: saving a scenario. On a reachable store, the click on the save
    button appends one scenario to the stored scenarios, with the clock
    as its id and creation time and the total of the current month as its
    baseline, and leaves the earlier scenarios, the habits, the ledger
    and the plans as they are. *)
Theorem saving_a_scenario_appends_it (now : Z)
    (createdAt currentMonth : string) (sl : Sliders) (store : Data) :
  reachable store →
  let after :=
    Scenarios.createBtn_click now createdAt currentMonth sl store in
  (∃ saved,
     getScenarios after = (getScenarios store ++ [saved])%list ∧
     sc_id saved = now ∧ sc_createdAt saved = createdAt ∧
     sc_baselineEmissions saved
     = total (getCurrentEmissions currentMonth store)) ∧
  habits after = habits store ∧ emissions after = emissions store ∧
  weeklyPlans after = weeklyPlans store ∧
  currentPlan after = currentPlan store.
Proof.
  intros Hr after. pose proof (StoreFacts.reachable_saved _ Hr) as Hsaved.
  unfold after, Scenarios.createBtn_click, addScenario, getScenarios, getData.
  split.
  - assert (Hsc : JSON.scenario <$> scenarios store = scenarios store)
      by exact (f_equal scenarios Hsaved).
    eexists. cbn [scenarios saveData JSON.data]. rewrite fmap_app, Hsc.
    cbn [fmap list_fmap].
    split; [reflexivity|]. split; [reflexivity|]. split; [reflexivity|].
    cbn [JSON.scenario sc_baselineEmissions Scenarios.createBtn_scenario].
    exact (f_equal total (HabitFacts.reachable_current currentMonth _ Hr)).
  - split; [exact (f_equal habits Hsaved)|].
    split; [exact (f_equal emissions Hsaved)|].
    split; [exact (f_equal weeklyPlans Hsaved)|reflexivity].
Qed.

Lemma saving_a_scenario_appends_it_witness :
  reachable (addHabit 1 "2026-11" carHabit initialData) ∧
  (sc_id <$> getScenarios
     (Scenarios.createBtn_click 5 "2026-11-02T10:00:00.000Z" "2026-11"
        oneMeatFreeDay (addHabit 1 "2026-11" carHabit initialData)))
  = [5%Z] ∧
  habits (Scenarios.createBtn_click 5 "2026-11-02T10:00:00.000Z" "2026-11"
            oneMeatFreeDay (addHabit 1 "2026-11" carHabit initialData))
  = habits (addHabit 1 "2026-11" carHabit initialData).
Proof.
  assert (Hr : reachable (addHabit 1 "2026-11" carHabit initialData))
    by (apply reach_addHabit, reach_init).
  split; [exact Hr|]. split; [vm_compute; reflexivity|].
  exact (proj1 (proj2 (saving_a_scenario_appends_it 5
                         "2026-11-02T10:00:00.000Z" "2026-11"
                         oneMeatFreeDay _ Hr))).
Defined.

End PageFacts.
